(** * Avalanche Knight: the Funtico session adapter (src/funtico-sdk.ts)

    A shallow embedding of the [FunticoManager] class.  The class owns three
    private fields ([sdk], [isInitialized], [userInfo]); its methods await the
    vendor SDK one call at a time inside [try]/[catch] blocks and touch the
    host page ([window.location], [window.history], [alert]).

    The embedding threads the instance and the environment through a small
    state-and-exception monad.  The vendor SDK is an oracle: the settled
    outcome of a call is a function of the calls issued before it and of the
    call itself, and every call issued on the handle is appended to a trace.
    Console output has no effect on any result and is left out, but a
    template literal handed to the console is evaluated, since converting a
    value to a string can throw.  Reading [window.location], assigning its
    [href] and [alert] complete normally; [history.replaceState] throws when
    the browser refuses the address. *)

From Stdlib Require Import String Ascii List ZArith Bool Lia.
Import ListNotations.
Open Scope string_scope.
Set Warnings "-register-all".

(** ** JavaScript values *)

(** The fields are typed [any].  The values are those of JSON, with
    [undefined]: what a vendor client hands back from a server response, and
    error objects as records of their [name], [message] and [status].
    Numbers are the integer-valued ones (user ids, scores); the adapter only
    ever tests a number for truthiness.  Objects are finite records of data
    properties, none of them callable; property lookup takes the first
    binding of a name.  Arrays have their elements and no named property. *)
Inductive JsValue : Type :=
| JUndefined
| JNull
| JBool (b : bool)
| JNum (n : Z)
| JStr (s : string)
| JArr (items : list JsValue)
| JObj (fields : list (string * JsValue)).

(** ToBoolean. *)
Definition truthy (v : JsValue) : bool :=
  match v with
  | JUndefined | JNull => false
  | JBool b => b
  | JNum n => negb (Z.eqb n 0)
  | JStr s => negb (String.eqb s "")
  | JArr _ | JObj _ => true
  end.

Fixpoint lookup_field (k : string) (fs : list (string * JsValue)) : option JsValue :=
  match fs with
  | [] => None
  | (k', v) :: rest => if String.eqb k k' then Some v else lookup_field k rest
  end.

(** [k in v] for the record of an object [v]. *)
Definition has_field (k : string) (fs : list (string * JsValue)) : bool :=
  match lookup_field k fs with Some _ => true | None => false end.

(** [String.prototype.includes]: [needle] occurs in [hay]. *)
Fixpoint includes (hay needle : string) : bool :=
  if String.prefix needle hay then true
  else match hay with
       | EmptyString => false
       | String _ rest => includes rest needle
       end.

(** A [TypeError] as the runtime raises it. *)
Definition type_error (msg : string) : JsValue :=
  JObj [("name", JStr "TypeError"); ("message", JStr msg)].

(** ** encodeURIComponent

    Every byte outside the unreserved set becomes [%XX]; on the UTF-8 bytes
    of a string this is what the builtin produces. *)
Definition hex_digit (n : nat) : ascii :=
  match n with
  | 0 => "0" | 1 => "1" | 2 => "2" | 3 => "3" | 4 => "4" | 5 => "5"
  | 6 => "6" | 7 => "7" | 8 => "8" | 9 => "9" | 10 => "A" | 11 => "B"
  | 12 => "C" | 13 => "D" | 14 => "E" | _ => "F"
  end%char.

Definition uri_unreserved (c : ascii) : bool :=
  let n := nat_of_ascii c in
  (Nat.leb 65 n && Nat.leb n 90) || (Nat.leb 97 n && Nat.leb n 122)
  || (Nat.leb 48 n && Nat.leb n 57)
  || existsb (Nat.eqb n) [45; 95; 46; 33; 126; 42; 39; 40; 41]%nat.

Fixpoint encodeURIComponent (s : string) : string :=
  match s with
  | EmptyString => EmptyString
  | String c rest =>
      if uri_unreserved c then String c (encodeURIComponent rest)
      else let n := nat_of_ascii c in
           String "%" (String (hex_digit (Nat.div n 16)) (String (hex_digit (Nat.modulo n 16))
                  (encodeURIComponent rest)))
  end.

(** ** The instance and its environment *)

(** The [sdk] field: never assigned ([undefined]), [null], or the object
    that [new FunticoSDK(...)] returned. *)
Inductive SdkSlot : Type := SdkUndefined | SdkNull | SdkHandle.

Record FunticoManager : Type := mkManager {
  sdk : SdkSlot;
  isInitialized : bool;
  userInfo : JsValue
}.

(** The methods of the vendor handle that the adapter calls. *)
Inductive VendorCall : Type :=
| VGetUserInfo
| VSignInWithFuntico (callbackUrl : string)
| VSaveScore (score : Z)
| VGetLeaderboard
| VSignOut (redirectUrl : string)
| VExchangeCodeForToken (code : string).

(** How an awaited vendor call settles. *)
Inductive Outcome : Type :=
| Resolved (v : JsValue)
| Rejected (e : JsValue).

(** [window.location].  [searchParams] is the list of name/value pairs that
    [new URLSearchParams(window.location.search)] holds.

    [same_origin_path] is the browser's URL parser on this origin, which is
    no part of the repository: a path that begins with two slashes is read
    as naming a host, and [same_origin_path p] is the path that such a [p]
    resolves to when the host it names is this origin, [None] when it names
    another origin or does not parse. *)
Record Location : Type := mkLocation {
  hostname : string;
  origin : string;
  pathname : string;
  href : string;
  searchParams : list (string * string);
  same_origin_path : string -> option string
}.

Record Env : Type := mkEnv {
  location : Location;
  vendor : list VendorCall -> VendorCall -> Outcome;
  calls : list VendorCall;       (* vendor calls issued so far *)
  navigations : list string;     (* assignments to window.location.href *)
  alerts : list string           (* blocking notices shown *)
}.

(** ** Completions and the monad *)

Inductive Completion (A : Type) : Type :=
| Normal (a : A)
| Throw (e : JsValue).
Arguments Normal {A} a.
Arguments Throw {A} e.

Definition M (A : Type) : Type :=
  FunticoManager -> Env -> Completion A * FunticoManager * Env.

Definition ret {A} (a : A) : M A := fun m w => (Normal a, m, w).

Definition throw {A} (e : JsValue) : M A := fun m w => (Throw e, m, w).

Definition bind {A B} (c : M A) (k : A -> M B) : M B :=
  fun m w =>
    match c m w with
    | (Normal a, m', w') => k a m' w'
    | (Throw e, m', w') => (Throw e, m', w')
    end.

(** [try { c } catch (e) { h e }] *)
Definition try_catch {A} (c : M A) (h : JsValue -> M A) : M A :=
  fun m w =>
    match c m w with
    | (Normal a, m', w') => (Normal a, m', w')
    | (Throw e, m', w') => h e m' w'
    end.

Notation "x <- c ;; k" := (bind c (fun x => k))
  (at level 61, c at next level, right associativity).
Notation "c ;;; k" := (bind c (fun _ => k))
  (at level 61, right associativity).

Definition this : M FunticoManager := fun m w => (Normal m, m, w).
Definition window : M Env := fun m w => (Normal w, m, w).

Definition set_userInfo (v : JsValue) : M unit :=
  fun m w => (Normal tt, mkManager (sdk m) (isInitialized m) v, w).

(** The three projections of a run. *)
Definition result {A} (r : Completion A * FunticoManager * Env) : Completion A :=
  fst (fst r).
Definition manager {A} (r : Completion A * FunticoManager * Env) : FunticoManager :=
  snd (fst r).
Definition env {A} (r : Completion A * FunticoManager * Env) : Env := snd r.

(** ** Primitives of the runtime and of the host page *)

Definition set_sdk (h : SdkSlot) : M unit :=
  fun m w => (Normal tt, mkManager h (isInitialized m) (userInfo m), w).

Definition set_isInitialized (b : bool) : M unit :=
  fun m w => (Normal tt, mkManager (sdk m) b (userInfo m), w).

Definition record_call (c : VendorCall) (w : Env) : Env :=
  mkEnv (location w) (vendor w) (calls w ++ [c]) (navigations w) (alerts w).

(** [await this.sdk.method(args)].  Reading a method off [undefined] or
    [null] raises a [TypeError] and reaches no vendor code; on a handle the
    call is recorded and settles as the vendor decides. *)
Definition sdk_call (c : VendorCall) : M JsValue :=
  fun m w =>
    match sdk m with
    | SdkHandle =>
        match vendor w (calls w) c with
        | Resolved v => (Normal v, m, record_call c w)
        | Rejected e => (Throw e, m, record_call c w)
        end
    | SdkUndefined | SdkNull =>
        (Throw (type_error "Cannot read properties of undefined"), m, w)
    end.

(** [Object.keys(this.sdk)] *)
Definition object_keys_sdk : M unit :=
  fun m w =>
    match sdk m with
    | SdkHandle => (Normal tt, m, w)
    | SdkUndefined | SdkNull =>
        (Throw (type_error "Cannot convert undefined or null to object"), m, w)
    end.

(** [v.k] on a value that is neither [undefined] nor [null]; none of the
    names the adapter reads exists on a primitive or an array. *)
Definition prop (v : JsValue) (k : string) : JsValue :=
  match v with
  | JObj fs => match lookup_field k fs with Some x => x | None => JUndefined end
  | _ => JUndefined
  end.

(** [v.k] *)
Definition get_prop (v : JsValue) (k : string) : M JsValue :=
  match v with
  | JUndefined | JNull => throw (type_error "Cannot read properties of undefined")
  | _ => ret (prop v k)
  end.

(** [v?.k] *)
Definition opt_prop (v : JsValue) (k : string) : JsValue :=
  match v with
  | JUndefined | JNull => JUndefined
  | _ => prop v k
  end.

(** [v === s] for a string literal [s]. *)
Definition is_string (v : JsValue) (s : string) : bool :=
  match v with
  | JStr t => String.eqb t s
  | _ => false
  end.

(** [a || b] *)
Definition js_or (a b : JsValue) : JsValue := if truthy a then a else b.

(** [v.includes(needle)]: the string method, the array method, or a
    [TypeError] where the value has no such method. *)
Definition call_includes (v : JsValue) (needle : string) : M bool :=
  match v with
  | JStr s => ret (includes s needle)
  | JArr items =>
      ret (existsb (fun x => is_string x needle) items)
  | _ => throw (type_error "includes is not a function")
  end.

(** [window.location.href = url] *)
Definition navigate (url : string) : M unit :=
  fun m w =>
    (Normal tt, m,
     mkEnv (location w) (vendor w) (calls w) (navigations w ++ [url]) (alerts w)).

(** [alert(msg)] *)
Definition alert (msg : string) : M unit :=
  fun m w =>
    (Normal tt, m,
     mkEnv (location w) (vendor w) (calls w) (navigations w) (alerts w ++ [msg])).

(** A [SecurityError] as the browser raises it. *)
Definition security_error (msg : string) : JsValue :=
  JObj [("name", JStr "SecurityError"); ("message", JStr msg)].

(** The address that [history.replaceState] installs when it is handed the
    path of the page (which begins with a slash), [None] when the browser
    refuses.  The path is resolved as a URL against the current address.  A
    path with a single leading slash stays on the origin: the address
    becomes the origin followed by the path, without a query.  A path that
    begins with two slashes names a host; the browser refuses it with a
    [SecurityError] unless that host is the origin of the page. *)
Definition rewritten (l : Location) : option Location :=
  let target :=
    if String.prefix "//" (pathname l) then same_origin_path l (pathname l)
    else Some (pathname l) in
  match target with
  | Some p =>
      Some (mkLocation (hostname l) (origin l) p (origin l ++ p) []
                       (same_origin_path l))
  | None => None
  end.

(** [window.history.replaceState({}, document.title, window.location.pathname)] *)
Definition replaceState_pathname : M unit :=
  fun m w =>
    match rewritten (location w) with
    | Some l =>
        (Normal tt, m,
         mkEnv l (vendor w) (calls w) (navigations w) (alerts w))
    | None =>
        (Throw (security_error "A history state object with this URL cannot be created"),
         m, w)
    end.

(** ToString completes normally on [v].  An object is converted through
    its [toString] and [valueOf]: with a [toString] property of its own,
    which is not callable, the conversion ends in a [TypeError]; without
    one the inherited method answers.  An array joins the conversions of its
    elements. *)
Fixpoint stringifies (v : JsValue) : bool :=
  match v with
  | JObj fs => negb (has_field "toString" fs)
  | JArr items => forallb stringifies items
  | _ => true
  end.

(** A template literal with the one substitution [v]; only whether it
    completes is of consequence. *)
Definition template_literal (v : JsValue) : M unit :=
  if stringifies v then ret tt
  else throw (type_error "Cannot convert object to primitive value").

(** [URLSearchParams.prototype.get]: the first value bound to [name], or
    [null]. *)
Fixpoint params_get (name : string) (ps : list (string * string)) : option string :=
  match ps with
  | [] => None
  | (k, v) :: rest => if String.eqb k name then Some v else params_get name rest
  end.

(** Truthiness of a [string | null]. *)
Definition truthy_param (p : option string) : bool :=
  match p with
  | Some s => negb (String.eqb s "")
  | None => false
  end.

(** ** src/funtico-sdk.ts *)

Definition typeof_object (v : JsValue) : bool :=
  match v with
  | JNull | JArr _ | JObj _ => true
  | _ => false
  end.

Definition is_null (v : JsValue) : bool :=
  match v with JNull => true | _ => false end.

(** [k in v], for the property names the guard asks about; an array has
    index properties and [length] only. *)
Definition js_in (k : string) (v : JsValue) : bool :=
  match v with
  | JObj fs => has_field k fs
  | _ => false
  end.

Definition isSDKError (error : JsValue) : bool :=
  typeof_object error && negb (is_null error)
  && js_in "name" error && js_in "status" error.

(** What is handed to [new FunticoSDK(...)]. *)
Record SdkConfig : Type := mkConfig {
  authClientId : string;
  env_tag : string;
  autoLogin : bool
}.

Definition sdk_config (l : Location) : SdkConfig :=
  let isFunticoHosted := includes (hostname l) "funtico.com" in
  let isProduction := includes (hostname l) "vercel.app" || isFunticoHosted in
  mkConfig "gl-avalanche-knight"
           (if isProduction then "production" else "sandbox")
           isFunticoHosted.

(** The field initialisers of the class. *)
Definition fresh : FunticoManager := mkManager SdkUndefined false JNull.

Section Construction.
(** [new (window as any).FunticoSDK(cfg)]: it yields a handle or throws
    (also when the global is missing). *)
Variable FunticoSDK : SdkConfig -> Completion unit.

Definition new_FunticoSDK (cfg : SdkConfig) : M SdkSlot :=
  fun m w =>
    match FunticoSDK cfg with
    | Normal _ => (Normal SdkHandle, m, w)
    | Throw e => (Throw e, m, w)
    end.

Definition initializeSDK : M unit :=
  try_catch
    (w <- window ;;
     h <- new_FunticoSDK (sdk_config (location w)) ;;
     set_sdk h ;;;
     set_isInitialized true)
    (fun _ => set_isInitialized false).

(** [new FunticoManager()] *)
Definition constructor (w : Env) : FunticoManager :=
  manager (initializeSDK fresh w).
End Construction.

Definition isReady (m : FunticoManager) : bool :=
  isInitialized m && negb (match sdk m with SdkNull => true | _ => false end).

Definition demo_identity : JsValue :=
  JObj [("username", JStr "demo_player");
        ("user_id", JNum 99999);
        ("email", JStr "demo@avalanche-knight.com")].

Definition newline : string := String (ascii_of_nat 10) EmptyString.

(** The text of the notice shown by the demo fallback. *)
Definition demo_notice : string :=
  "DEMO MODE: Mock login successful!" ++ newline ++ newline
  ++ "Username: " ++ "demo_player" ++ newline ++ newline
  ++ "Note: Contact Funtico support to enable real login:" ++ newline
  ++ "gameloop@funtico.com".

Definition login_url (callbackUrl : string) : string :=
  "https://auth.funtico.com/oauth2/auth?client_id=gl-avalanche-knight&redirect_uri="
  ++ encodeURIComponent callbackUrl
  ++ "&response_type=code&scope=openid+profile+email".

(** Lines 65-73: the session check on the vendor's own pages; it tells
    whether [signIn] returned from inside it. *)
Definition signIn_existing_session : M bool :=
  try_catch
    (v <- sdk_call VGetUserInfo ;;
     set_userInfo v ;;;
     if truthy v then
       template_literal (prop v "username") ;;;
       ret true
     else ret false)
    (fun _ => ret false).

(** Lines 99-120: the outer [catch] block of [signIn]. *)
Definition signIn_failed (error : JsValue) : M bool :=
  message <- get_prop error "message" ;;
  if truthy message then
    found <- call_includes message "redirect_uri" ;;
    if found then
      set_userInfo demo_identity ;;;
      alert demo_notice ;;;
      ret true
    else ret false
  else ret false.

(** Lines 76-120. *)
Definition signIn_attempt : M bool :=
  try_catch
    (w <- window ;;
     let baseUrl := origin (location w) in
     let callbackUrl := baseUrl ++ "/" in
     object_keys_sdk ;;;
     try_catch
       (sdk_call (VSignInWithFuntico callbackUrl) ;;;
        ret true)
       (fun signInError =>
          navigate (login_url callbackUrl) ;;;
          ret true))
    signIn_failed.

Definition signIn : M bool :=
  m <- this ;;
  if negb (isReady m) then ret false
  else
    w <- window ;;
    let isFunticoHosted := includes (hostname (location w)) "funtico.com" in
    returned <- (if isFunticoHosted then signIn_existing_session else ret false) ;;
    if returned then ret true else signIn_attempt.

(** Lines 138-154: the [catch] block of [getUserInfo]; the [switch] on
    [error.name] falls through to the final [return null]. *)
Definition getUserInfo_failed (error : JsValue) : M JsValue :=
  if isSDKError error then
    let name := prop error "name" in
    if is_string name "auth_error" then ret JNull
    else if is_string name "internal_server_error" then ret JNull
    else ret JNull
  else ret JNull.

Definition getUserInfo : M JsValue :=
  m <- this ;;
  if negb (isReady m) then ret JNull
  else if truthy (userInfo m) then ret (userInfo m)
  else
    try_catch
      (v <- sdk_call VGetUserInfo ;;
       set_userInfo v ;;;
       ret v)
      getUserInfo_failed.

Definition saveScore (score : Z) : M bool :=
  m <- this ;;
  if negb (isReady m) then ret false
  else
    try_catch
      (sdk_call (VSaveScore score) ;;;
       ret true)
      (fun _ => ret true).

Definition getLeaderboard : M JsValue :=
  m <- this ;;
  if negb (isReady m) then ret (JArr [])
  else
    try_catch
      (leaderboard <- sdk_call VGetLeaderboard ;;
       ret leaderboard)
      (fun _ => ret (JArr [])).

Definition signOut : M bool :=
  m <- this ;;
  if negb (isReady m) then ret false
  else
    try_catch
      (w <- window ;;
       sdk_call (VSignOut (href (location w))) ;;;
       set_userInfo JNull ;;;
       ret true)
      (fun _ => ret false).

Definition handleCallback : M bool :=
  w <- window ;;
  let urlParams := searchParams (location w) in
  let code := params_get "code" urlParams in
  let error := params_get "error" urlParams in
  if truthy_param error then ret false
  else
    match code with
    | Some c =>
        if truthy_param code then
          try_catch
            (tokenResponse <- sdk_call (VExchangeCodeForToken c) ;;
             v <- sdk_call VGetUserInfo ;;
             set_userInfo v ;;;
             replaceState_pathname ;;;
             ret true)
            (fun _ => ret false)
        else ret false
    | None => ret false
    end.

Definition isAuthenticated (m : FunticoManager) : bool :=
  negb (is_null (userInfo m)).

Definition getUsername (m : FunticoManager) : JsValue :=
  js_or (opt_prop (userInfo m) "username") (JStr "Guest").

Definition getUserId (m : FunticoManager) : JsValue :=
  js_or (opt_prop (userInfo m) "user_id") JNull.

(** ** Public operations as a datatype *)

Inductive Op : Type :=
| OpIsReady
| OpSignIn
| OpGetUserInfo
| OpSaveScore (score : Z)
| OpGetLeaderboard
| OpSignOut
| OpHandleCallback
| OpIsAuthenticated
| OpGetUsername
| OpGetUserId.

(** A synchronous accessor: it reads the instance and nothing else. *)
Definition accessor {A} (f : FunticoManager -> A) : M A :=
  fun m w => (Normal (f m), m, w).

Definition returning {A} (inj : A -> JsValue) (c : M A) : M JsValue :=
  x <- c ;; ret (inj x).

(** One call of a public operation, its result injected into [JsValue]. *)
Definition call (op : Op) : M JsValue :=
  match op with
  | OpIsReady => returning JBool (accessor isReady)
  | OpSignIn => returning JBool signIn
  | OpGetUserInfo => getUserInfo
  | OpSaveScore score => returning JBool (saveScore score)
  | OpGetLeaderboard => getLeaderboard
  | OpSignOut => returning JBool signOut
  | OpHandleCallback => returning JBool handleCallback
  | OpIsAuthenticated => returning JBool (accessor isAuthenticated)
  | OpGetUsername => accessor getUsername
  | OpGetUserId => accessor getUserId
  end.

(** A sequence of calls; the host page and the vendor may be in any state
    at each of them. *)
Fixpoint calls_from (m : FunticoManager) (steps : list (Op * Env)) : FunticoManager :=
  match steps with
  | [] => m
  | (op, w) :: rest => calls_from (manager (call op m w)) rest
  end.

(** The instances a program can hold: built by the constructor, then used
    through the public operations only (the fields are private). *)
Inductive reachable : FunticoManager -> Prop :=
| reach_new : forall FunticoSDK w, reachable (constructor FunticoSDK w)
| reach_call : forall op m w, reachable m -> reachable (manager (call op m w)).

(** What the constructor establishes and every operation keeps. *)
Definition consistent (m : FunticoManager) : Prop :=
  (isInitialized m = true /\ sdk m = SdkHandle)
  \/ (isInitialized m = false /\ sdk m = SdkUndefined /\ userInfo m = JNull).

(** ** Predicates on computations *)

(** [c] writes neither [sdk] nor [isInitialized]. *)
Definition preserves_handle {A} (c : M A) : Prop :=
  forall m w,
    sdk (manager (c m w)) = sdk m
    /\ isInitialized (manager (c m w)) = isInitialized m.

(** [c] completes normally on every instance and in every environment. *)
Definition never_throws {A} (c : M A) : Prop :=
  forall m w, exists a, result (c m w) = Normal a.

(** The awaited call [c], issued on the handle in environment [w],
    resolves to [v]. *)
Definition resolves (m : FunticoManager) (w : Env) (c : VendorCall) (v : JsValue) : Prop :=
  sdk m = SdkHandle /\ vendor w (calls w) c = Resolved v.

(** ** Vocabulary for the effects of a call *)

(** The instance with [userInfo] replaced. *)
Definition with_userInfo (m : FunticoManager) (v : JsValue) : FunticoManager :=
  mkManager (sdk m) (isInitialized m) v.

(** The vendor calls that a run started in [w] added to the trace. *)
Definition issued {A} (w : Env) (r : Completion A * FunticoManager * Env)
  : list VendorCall :=
  skipn (length (calls w)) (calls (env r)).

(** The operations whose bodies assign no field of the instance. *)
Definition assigns_nothing (op : Op) : bool :=
  match op with
  | OpSignIn | OpGetUserInfo | OpSignOut | OpHandleCallback => false
  | _ => true
  end.

(** [v] is what [getUserInfo] of the vendor resolved to at some point of
    one of the environments of [steps]. *)
Definition vendor_identity (steps : list (Op * Env)) (v : JsValue) : Prop :=
  exists op w cs, In (op, w) steps /\ vendor w cs VGetUserInfo = Resolved v.

(** The address after a [replaceState] to the path that the browser
    accepted. *)
Definition clean_location (l : Location) : Location :=
  match rewritten l with
  | Some l' => l'
  | None => l
  end.

(** Percent-decoding of well-formed input, as the receiver of a URL
    applies it to a parameter value: [%] followed by two hexadecimal digits
    stands for the byte they denote. *)
Definition hex_value (c : ascii) : nat :=
  let n := nat_of_ascii c in
  if Nat.leb 97 n then n - 87
  else if Nat.leb 65 n then n - 55
  else n - 48.

Fixpoint percent_decode (s : string) : string :=
  match s with
  | EmptyString => EmptyString
  | String c rest =>
      match rest with
      | String h (String l rest') =>
          if Ascii.eqb c "%"
          then String (ascii_of_nat (16 * hex_value h + hex_value l))
                      (percent_decode rest')
          else String c (percent_decode rest)
      | _ => String c (percent_decode rest)
      end
  end.

(** Characters that [encodeURIComponent] may emit. *)
Definition uri_safe (c : ascii) : bool :=
  uri_unreserved c || Ascii.eqb c "%"%char.

(** The shape of the environment after a call: the trace grows by at most
    two calls, only [signIn] may navigate, only a successful
    [handleCallback] may rewrite the address, and no notice is shown. *)
Definition effects (op : Op) (w : Env) (r : Completion JsValue * FunticoManager * Env)
                   (l : list VendorCall) (loc : Location) (nav : list string) : Prop :=
  env r = mkEnv loc (vendor w) (calls w ++ l) nav (alerts w)
  /\ length l <= 2
  /\ (loc = location w
      \/ (op = OpHandleCallback /\ result r = Normal (JBool true)
          /\ loc = clean_location (location w)))
  /\ (nav = navigations w
      \/ (op = OpSignIn
          /\ nav = (navigations w ++ [login_url (origin (location w) ++ "/")])%list)).

(** ** Sample runs *)

Module Samples.
(** A browser on a page whose path names no host. *)
Definition no_host (_ : string) : option string := None.

Definition external : Location :=
  mkLocation "avalanche-knight.vercel.app" "https://avalanche-knight.vercel.app"
             "/" "https://avalanche-knight.vercel.app/" [] no_host.

(** The same page with the query [q], whose parameters are [ps]. *)
Definition with_query (q : string) (ps : list (string * string)) : Location :=
  mkLocation (hostname external) (origin external) "/"
             (origin external ++ "/" ++ q) ps no_host.

(** A page whose path begins with two slashes and names another host. *)
Definition foreign_path (q : string) (ps : list (string * string)) : Location :=
  mkLocation (hostname external) (origin external) "//x"
             (origin external ++ "//x" ++ q) ps no_host.

(** An identity whose username cannot be converted to a string. *)
Definition unprintable : JsValue :=
  JObj [("username", JObj [("toString", JNull); ("valueOf", JNull)]);
        ("user_id", JNum 7)].

(** A vendor with a session for that identity. *)
Definition vendor_unprintable (_ : list VendorCall) (c : VendorCall) : Outcome :=
  match c with
  | VGetUserInfo => Resolved unprintable
  | _ => Resolved JUndefined
  end.

Definition alice : JsValue := JObj [("username", JStr "alice"); ("user_id", JNum 7)].

(** A vendor that accepts everything and knows alice. *)
Definition vendor_ok (_ : list VendorCall) (c : VendorCall) : Outcome :=
  match c with
  | VGetUserInfo => Resolved alice
  | VGetLeaderboard => Resolved (JArr [])
  | _ => Resolved JUndefined
  end.

(** A vendor whose every call fails with the given error. *)
Definition vendor_failing (e : JsValue) (_ : list VendorCall) (_ : VendorCall) : Outcome :=
  Rejected e.

(** A vendor without a session: [getUserInfo] resolves to [undefined]. *)
Definition vendor_no_session (_ : list VendorCall) (c : VendorCall) : Outcome :=
  match c with
  | VGetUserInfo => Resolved JUndefined
  | _ => Resolved (JObj [])
  end.

(** A vendor whose identity has the empty string as username. *)
Definition vendor_nameless (_ : list VendorCall) (c : VendorCall) : Outcome :=
  match c with
  | VGetUserInfo => Resolved (JObj [("username", JStr ""); ("user_id", JNum 7)])
  | _ => Resolved (JObj [])
  end.

(** A page served from the vendor's own domain. *)
Definition hosted : Location :=
  mkLocation "play.funtico.com" "https://play.funtico.com"
             "/avalanche-knight" "https://play.funtico.com/avalanche-knight" []
             no_host.

(** A vendor that rejects [signInWithFuntico] and [getUserInfo] and
    accepts the rest. *)
Definition vendor_signed_out (_ : list VendorCall) (c : VendorCall) : Outcome :=
  match c with
  | VGetUserInfo => Rejected (JObj [("name", JStr "auth_error"); ("status", JNum 401)])
  | VSignInWithFuntico _ => Rejected (type_error "popup blocked")
  | _ => Resolved JUndefined
  end.

Definition page (l : Location) (v : list VendorCall -> VendorCall -> Outcome) : Env :=
  mkEnv l v [] [] [].

Definition sdk_present (_ : SdkConfig) : Completion unit := Normal tt.
Definition sdk_missing (_ : SdkConfig) : Completion unit :=
  Throw (type_error "FunticoSDK is not a constructor").

Definition ready : FunticoManager := constructor sdk_present (page external vendor_ok).
Definition not_ready : FunticoManager := constructor sdk_missing (page external vendor_ok).
End Samples.

(** * Properties *)

(** ** Framing: no operation writes [sdk] or [isInitialized] *)
Lemma preserves_ret {A} (a : A) : preserves_handle (ret a).
Proof. intros m w; split; reflexivity. Qed.

Lemma preserves_throw {A} (e : JsValue) : preserves_handle (@throw A e).
Proof. intros m w; split; reflexivity. Qed.

Lemma preserves_bind {A B} (c : M A) (k : A -> M B) :
  preserves_handle c -> (forall a, preserves_handle (k a)) ->
  preserves_handle (bind c k).
Proof.
  intros Hc Hk m w. unfold bind.
  specialize (Hc m w). unfold manager in *.
  destruct (c m w) as [[r m'] w']; simpl in Hc.
  destruct r as [a | e]; simpl.
  - destruct (Hk a m' w') as [H1 H2]. unfold manager in *.
    split; etransitivity; eauto; tauto.
  - exact Hc.
Qed.

Lemma preserves_try_catch {A} (c : M A) (h : JsValue -> M A) :
  preserves_handle c -> (forall e, preserves_handle (h e)) ->
  preserves_handle (try_catch c h).
Proof.
  intros Hc Hh m w. unfold try_catch.
  specialize (Hc m w). unfold manager in *.
  destruct (c m w) as [[r m'] w']; simpl in Hc.
  destruct r as [a | e]; simpl.
  - exact Hc.
  - destruct (Hh e m' w') as [H1 H2]. unfold manager in *.
    split; etransitivity; eauto; tauto.
Qed.

Lemma preserves_this : preserves_handle this.
Proof. intros m w; split; reflexivity. Qed.

Lemma preserves_window : preserves_handle window.
Proof. intros m w; split; reflexivity. Qed.

Lemma preserves_set_userInfo v : preserves_handle (set_userInfo v).
Proof. intros m w; split; reflexivity. Qed.

Lemma sdk_call_manager c m w : manager (sdk_call c m w) = m.
Proof.
  unfold sdk_call, manager.
  destruct (sdk m); try reflexivity.
  destruct (vendor w (calls w) c); reflexivity.
Qed.

Lemma preserves_sdk_call c : preserves_handle (sdk_call c).
Proof. intros m w. rewrite sdk_call_manager. split; reflexivity. Qed.

Lemma object_keys_sdk_manager m w : manager (object_keys_sdk m w) = m.
Proof. unfold object_keys_sdk, manager. destruct (sdk m); reflexivity. Qed.

Lemma preserves_object_keys_sdk : preserves_handle object_keys_sdk.
Proof. intros m w. rewrite object_keys_sdk_manager. split; reflexivity. Qed.

Lemma preserves_get_prop v k : preserves_handle (get_prop v k).
Proof. destruct v; intros m w; split; reflexivity. Qed.

Lemma preserves_call_includes v s : preserves_handle (call_includes v s).
Proof. destruct v; intros m w; split; reflexivity. Qed.

Lemma preserves_navigate url : preserves_handle (navigate url).
Proof. intros m w; split; reflexivity. Qed.

Lemma preserves_alert msg : preserves_handle (alert msg).
Proof. intros m w; split; reflexivity. Qed.

Lemma preserves_replaceState : preserves_handle replaceState_pathname.
Proof.
  intros m w. unfold replaceState_pathname, manager.
  destruct (rewritten (location w)); split; reflexivity.
Qed.

Lemma preserves_template_literal v : preserves_handle (template_literal v).
Proof.
  unfold template_literal. destruct (stringifies v); intros m w; split; reflexivity.
Qed.

Lemma preserves_accessor {A} (f : FunticoManager -> A) : preserves_handle (accessor f).
Proof. intros m w; split; reflexivity. Qed.

Create HintDb frame.
#[local] Hint Resolve preserves_ret preserves_throw preserves_this preserves_window
  preserves_set_userInfo preserves_sdk_call preserves_object_keys_sdk
  preserves_get_prop preserves_call_includes preserves_navigate preserves_alert
  preserves_replaceState preserves_template_literal preserves_accessor : frame.

(** Walks a method body: sequencing and [try]/[catch] by the two
    composition lemmas, branches by cases, leaves by the hint database. *)
Ltac frame :=
  repeat first
    [ apply preserves_bind; [ | intro ]
    | apply preserves_try_catch; [ | intro ]
    | solve [ auto with frame ]
    | match goal with
      | |- preserves_handle (if ?b then _ else _) => destruct b
      | |- preserves_handle (match ?x with _ => _ end) => destruct x
      end ].

Lemma preserves_getUserInfo_failed e : preserves_handle (getUserInfo_failed e).
Proof. unfold getUserInfo_failed. cbv zeta. frame. Qed.

Lemma preserves_signIn : preserves_handle signIn.
Proof. unfold signIn, signIn_existing_session, signIn_attempt. frame. Qed.

Lemma preserves_getUserInfo : preserves_handle getUserInfo.
Proof. unfold getUserInfo. frame. apply preserves_getUserInfo_failed. Qed.

Lemma preserves_saveScore score : preserves_handle (saveScore score).
Proof. unfold saveScore. frame. Qed.

Lemma preserves_getLeaderboard : preserves_handle getLeaderboard.
Proof. unfold getLeaderboard. frame. Qed.

Lemma preserves_signOut : preserves_handle signOut.
Proof. unfold signOut. frame. Qed.

Lemma preserves_handleCallback : preserves_handle handleCallback.
Proof. unfold handleCallback. frame. Qed.

Lemma preserves_call op : preserves_handle (call op).
Proof.
  destruct op; unfold call, returning;
    auto using preserves_getUserInfo, preserves_getLeaderboard with frame;
    apply preserves_bind; auto using preserves_signIn, preserves_saveScore,
      preserves_signOut, preserves_handleCallback with frame.
Qed.

Lemma isReady_fields m m' :
  sdk m' = sdk m -> isInitialized m' = isInitialized m -> isReady m' = isReady m.
Proof. unfold isReady. intros -> ->. reflexivity. Qed.

Lemma isReady_calls_from steps : forall m,
  sdk (calls_from m steps) = sdk m
  /\ isInitialized (calls_from m steps) = isInitialized m.
Proof.
  induction steps as [| [op w] rest IH]; intros m; simpl.
  - split; reflexivity.
  - destruct (IH (manager (call op m w))) as [H1 H2].
    destruct (preserves_call op m w) as [H3 H4].
    split; congruence.
Qed.

(** ** The not-ready instance *)

Section NotReady.
Variables (m : FunticoManager) (w : Env).
Hypothesis not_ready : isReady m = false.

Lemma signIn_not_ready : signIn m w = (Normal false, m, w).
Proof. unfold signIn, bind, this. rewrite not_ready. reflexivity. Qed.

Lemma getUserInfo_not_ready : getUserInfo m w = (Normal JNull, m, w).
Proof. unfold getUserInfo, bind, this. rewrite not_ready. reflexivity. Qed.

Lemma saveScore_not_ready score : saveScore score m w = (Normal false, m, w).
Proof. unfold saveScore, bind, this. rewrite not_ready. reflexivity. Qed.

Lemma getLeaderboard_not_ready : getLeaderboard m w = (Normal (JArr []), m, w).
Proof. unfold getLeaderboard, bind, this. rewrite not_ready. reflexivity. Qed.

Lemma signOut_not_ready : signOut m w = (Normal false, m, w).
Proof. unfold signOut, bind, this. rewrite not_ready. reflexivity. Qed.
End NotReady.

(** [handleCallback] has no readiness test of its own.  Without a handle
    the read of [exchangeCodeForToken] off [undefined] raises inside the
    [try], and the [catch] turns that into [false]. *)
Lemma handleCallback_no_handle m w :
  sdk m <> SdkHandle -> handleCallback m w = (Normal false, m, w).
Proof.
  intros Hsdk. unfold handleCallback, bind, window.
  destruct (truthy_param (params_get "error" (searchParams (location w))));
    [ reflexivity | ].
  destruct (params_get "code" (searchParams (location w))) as [c | ];
    [ | reflexivity ].
  destruct (truthy_param (Some c)); [ | reflexivity ].
  unfold try_catch, sdk_call.
  destruct (sdk m); [ reflexivity | reflexivity | congruence ].
Qed.

Lemma call_without_handle op m w :
  isInitialized m = false -> sdk m = SdkUndefined ->
  manager (call op m w) = m.
Proof.
  intros Hinit Hsdk.
  assert (Hready : isReady m = false) by (unfold isReady; rewrite Hinit; reflexivity).
  assert (Hno : sdk m <> SdkHandle) by congruence.
  destruct op; unfold call, returning, accessor, bind;
    rewrite ?signIn_not_ready, ?getUserInfo_not_ready, ?saveScore_not_ready,
      ?getLeaderboard_not_ready, ?signOut_not_ready, ?handleCallback_no_handle
      by assumption;
    reflexivity.
Qed.

(** ** The invariant of reachable instances *)

Lemma constructor_consistent FunticoSDK w : consistent (constructor FunticoSDK w).
Proof.
  unfold constructor, initializeSDK, try_catch, bind, window, new_FunticoSDK, manager.
  destruct (FunticoSDK (sdk_config (location w))); simpl.
  - left. split; reflexivity.
  - right. repeat split; reflexivity.
Qed.

Lemma call_consistent op m w : consistent m -> consistent (manager (call op m w)).
Proof.
  intros [[Hinit Hsdk] | [Hinit [Hsdk Huser]]].
  - left. destruct (preserves_call op m w) as [H1 H2]. split; congruence.
  - right. rewrite call_without_handle by assumption. auto.
Qed.

Lemma reachable_consistent m : reachable m -> consistent m.
Proof.
  induction 1 as [FunticoSDK w | op m w _ IH].
  - apply constructor_consistent.
  - apply call_consistent, IH.
Qed.

Lemma reachable_calls_from steps : forall m,
  reachable m -> reachable (calls_from m steps).
Proof.
  induction steps as [| [op w] rest IH]; intros m Hm; simpl.
  - exact Hm.
  - apply IH, reach_call, Hm.
Qed.

Lemma consistent_not_ready m :
  consistent m -> isReady m = false ->
  isInitialized m = false /\ sdk m = SdkUndefined /\ userInfo m = JNull.
Proof.
  intros [[Hinit Hsdk] | H] Hready; [ | exact H ].
  unfold isReady in Hready. rewrite Hinit, Hsdk in Hready. discriminate.
Qed.

Lemma consistent_ready m :
  consistent m -> isReady m = true -> sdk m = SdkHandle.
Proof.
  intros [[Hinit Hsdk] | [Hinit _]] Hready; [ exact Hsdk | ].
  unfold isReady in Hready. rewrite Hinit in Hready. discriminate.
Qed.

(** [handleCallback] relies on the handle being absent, not on the flag:
    an instance holding a handle with the flag unset would let a [code]
    through to the vendor.  No such instance is reachable. *)
Remark handleCallback_unguarded :
  let m := mkManager SdkHandle false JNull in
  let w := Samples.page (Samples.with_query "?code=abc123" [("code", "abc123")]) Samples.vendor_ok in
  isReady m = false
  /\ calls (env (handleCallback m w)) = [VExchangeCodeForToken "abc123"; VGetUserInfo]
  /\ ~ reachable m.
Proof.
  cbv zeta. repeat split.
  intros H. apply reachable_consistent in H.
  destruct H as [[H _] | [_ [H _]]]; discriminate.
Qed.

(** C1.  On a not-ready instance (any instance that the constructor and
    the public operations can produce) each of [signIn], [getUserInfo],
    [saveScore], [getLeaderboard], [signOut] and [handleCallback] returns
    its unavailable result ([false], [null], [false], [[]], [false],
    [false]); the instance and the environment, the trace of vendor calls
    included, are as before the call. *)
Theorem not_ready_unavailable (m : FunticoManager) (w : Env) (score : Z) :
  reachable m -> isReady m = false ->
  signIn m w = (Normal false, m, w)
  /\ getUserInfo m w = (Normal JNull, m, w)
  /\ saveScore score m w = (Normal false, m, w)
  /\ getLeaderboard m w = (Normal (JArr []), m, w)
  /\ signOut m w = (Normal false, m, w)
  /\ handleCallback m w = (Normal false, m, w).
Proof.
  intros Hreach Hready.
  destruct (consistent_not_ready m (reachable_consistent m Hreach) Hready)
    as [_ [Hsdk _]].
  repeat split;
    auto using signIn_not_ready, getUserInfo_not_ready, saveScore_not_ready,
      getLeaderboard_not_ready, signOut_not_ready.
  apply handleCallback_no_handle. congruence.
Qed.

Lemma not_ready_unavailable_witness :
  let m := Samples.not_ready in
  let w := Samples.page (Samples.with_query "?code=abc123" [("code", "abc123")]) Samples.vendor_ok in
  reachable m /\ isReady m = false
  /\ signIn m w = (Normal false, m, w)
  /\ getUserInfo m w = (Normal JNull, m, w)
  /\ saveScore 1200 m w = (Normal false, m, w)
  /\ getLeaderboard m w = (Normal (JArr []), m, w)
  /\ signOut m w = (Normal false, m, w)
  /\ handleCallback m w = (Normal false, m, w).
Proof.
  intros m w.
  assert (Hreach : reachable m) by apply (reach_new Samples.sdk_missing).
  assert (Hready : isReady m = false) by reflexivity.
  split; [ exact Hreach | ].
  split; [ exact Hready | ].
  exact (not_ready_unavailable m w 1200%Z Hreach Hready).
Defined.

(** C10.  No public operation writes the initialisation flag or the
    handle, so after any sequence of public operations [isReady] answers
    as it did before them. *)
Theorem isReady_fixed (m : FunticoManager) (steps : list (Op * Env)) (w : Env) :
  sdk (calls_from m steps) = sdk m
  /\ isInitialized (calls_from m steps) = isInitialized m
  /\ isReady (calls_from m steps) = isReady m
  /\ result (call OpIsReady (calls_from m steps) w) = result (call OpIsReady m w).
Proof.
  destruct (isReady_calls_from steps m) as [H1 H2].
  assert (H3 : isReady (calls_from m steps) = isReady m)
    by auto using isReady_fields.
  repeat split; auto.
  unfold call, returning, accessor, bind, ret, result; simpl.
  rewrite H3. reflexivity.
Qed.

(** ** Sign-in *)

(** With a handle in place the outer [try] of [signIn] cannot fail: a
    failure of [signInWithFuntico] is caught by the inner [catch], which
    navigates to the hand-built login address and returns [true].  The
    outer [catch], and with it the demo identity, is never entered. *)
Lemma signIn_attempt_with_handle m w :
  sdk m = SdkHandle ->
  let callbackUrl := origin (location w) ++ "/" in
  signIn_attempt m w =
    match vendor w (calls w) (VSignInWithFuntico callbackUrl) with
    | Resolved _ => (Normal true, m, record_call (VSignInWithFuntico callbackUrl) w)
    | Rejected _ =>
        (Normal true, m,
         env (navigate (login_url callbackUrl) m
                (record_call (VSignInWithFuntico callbackUrl) w)))
    end.
Proof.
  intros Hsdk callbackUrl.
  destruct m as [h i u]; simpl in Hsdk; subst h.
  unfold signIn_attempt, try_catch, bind, window, object_keys_sdk, sdk_call.
  cbn [sdk]. fold callbackUrl.
  destruct (vendor w (calls w) (VSignInWithFuntico callbackUrl)); reflexivity.
Qed.

Lemma signIn_attempt_keeps_identity m w :
  sdk m = SdkHandle ->
  result (signIn_attempt m w) = Normal true /\ manager (signIn_attempt m w) = m.
Proof.
  intros Hsdk. rewrite (signIn_attempt_with_handle m w Hsdk).
  destruct (vendor w (calls w) (VSignInWithFuntico (origin (location w) ++ "/")));
    split; reflexivity.
Qed.

(** The fallback itself does what its comment says, once entered. *)
Lemma signIn_failed_redirect_uri fields msg m w :
  lookup_field "message" fields = Some (JStr msg) ->
  includes msg "redirect_uri" = true ->
  signIn_failed (JObj fields) m w =
    (Normal true,
     mkManager (sdk m) (isInitialized m) demo_identity,
     env (alert demo_notice m w)).
Proof.
  intros Hmsg Hinc.
  unfold signIn_failed, bind, get_prop, ret, prop. rewrite Hmsg.
  destruct msg as [ | c rest ]; [ discriminate Hinc | ].
  cbn [truthy String.eqb negb call_includes]. rewrite Hinc. reflexivity.
Qed.

(** No reachable instance ever enters it: [signIn] shows no notice, and
    the identity it leaves is the one it found or one the vendor's
    [getUserInfo] resolved to. *)
Lemma signIn_never_falls_back m w :
  reachable m ->
  alerts (env (signIn m w)) = alerts w
  /\ (userInfo (manager (signIn m w)) = userInfo m
      \/ vendor w (calls w) VGetUserInfo
         = Resolved (userInfo (manager (signIn m w)))).
Proof.
  intros Hreach.
  destruct (isReady m) eqn:Hready;
    [ | rewrite signIn_not_ready by assumption; auto ].
  pose proof (consistent_ready m (reachable_consistent m Hreach) Hready) as Hsdk.
  unfold signIn, bind, this, window. rewrite Hready. cbn [negb].
  destruct (includes (hostname (location w)) "funtico.com").
  - unfold signIn_existing_session, try_catch, bind, sdk_call, set_userInfo.
    rewrite Hsdk.
    destruct (vendor w (calls w) VGetUserInfo) as [v | e] eqn:Hget.
    + assert (Hattempt :
        alerts (env (signIn_attempt (mkManager (sdk m) (isInitialized m) v)
                                    (record_call VGetUserInfo w))) = alerts w
        /\ (userInfo (manager (signIn_attempt (mkManager (sdk m) (isInitialized m) v)
                                              (record_call VGetUserInfo w)))
              = userInfo m
            \/ Resolved v
               = Resolved (userInfo (manager
                    (signIn_attempt (mkManager (sdk m) (isInitialized m) v)
                                    (record_call VGetUserInfo w)))))).
      { rewrite signIn_attempt_with_handle by exact Hsdk.
        match goal with |- context [match ?o with _ => _ end] => destruct o end;
          split; solve [ reflexivity | right; reflexivity ]. }
      destruct (truthy v); [ | exact Hattempt ].
      unfold template_literal.
      destruct (stringifies (prop v "username"));
        [ split; [ reflexivity | right; reflexivity ] | exact Hattempt ].
    + cbn [ret]. rewrite signIn_attempt_with_handle by exact Hsdk.
      match goal with |- context [match ?o with _ => _ end] => destruct o end;
        split; solve [ reflexivity | left; reflexivity ].
  - cbn [ret]. rewrite signIn_attempt_with_handle by exact Hsdk.
    match goal with |- context [match ?o with _ => _ end] => destruct o end;
      split; solve [ reflexivity | left; reflexivity ].
Qed.

(** C2.  A ready instance on an external host, a vendor whose
    [signInWithFuntico] rejects with an error whose message contains
    [redirect_uri]: [signIn] returns [true], but through the redirect of the
    inner [catch]; no identity is cached and no notice is shown. *)
Theorem signIn_redirect_uri_error_not_demo :
  let e := JObj [("name", JStr "Error"); ("message", JStr "Invalid redirect_uri")] in
  let w := Samples.page Samples.external (Samples.vendor_failing e) in
  let r := signIn Samples.ready w in
  isReady Samples.ready = true
  /\ vendor w (calls w) (VSignInWithFuntico (origin (location w) ++ "/")) = Rejected e
  /\ includes "Invalid redirect_uri" "redirect_uri" = true
  /\ result r = Normal true
  /\ userInfo (manager r) = JNull
  /\ userInfo (manager r) <> demo_identity
  /\ navigations (env r) = [login_url (origin (location w) ++ "/")]
  /\ alerts (env r) = [].
Proof.
  cbv zeta. repeat split; try reflexivity.
  vm_compute. discriminate.
Qed.

(** ** Identity lookup *)

Lemma consistent_cached_ready m :
  consistent m -> truthy (userInfo m) = true -> isReady m = true.
Proof.
  intros [[Hinit Hsdk] | [_ [_ Huser]]] Hcached.
  - unfold isReady. rewrite Hinit, Hsdk. reflexivity.
  - rewrite Huser in Hcached. discriminate.
Qed.

(** C3.  While a non-empty (truthy) identity is cached, [getUserInfo]
    returns exactly that value and leaves the instance and the environment,
    the trace of vendor calls included, untouched; so does every further
    call. *)
Theorem getUserInfo_cached (m : FunticoManager) (w w' : Env) :
  reachable m -> truthy (userInfo m) = true ->
  getUserInfo m w = (Normal (userInfo m), m, w)
  /\ getUserInfo (manager (getUserInfo m w)) w' = (Normal (userInfo m), m, w').
Proof.
  intros Hreach Hcached.
  pose proof (consistent_cached_ready m (reachable_consistent m Hreach) Hcached)
    as Hready.
  assert (Hone : forall w0, getUserInfo m w0 = (Normal (userInfo m), m, w0)).
  { intros w0. unfold getUserInfo, bind, this.
    rewrite Hready, Hcached. reflexivity. }
  split; [ apply Hone | ].
  rewrite (Hone w). apply Hone.
Qed.

Lemma getUserInfo_cached_witness :
  let w := Samples.page (Samples.with_query "?code=abc123" [("code", "abc123")]) Samples.vendor_ok in
  let m := manager (call OpHandleCallback Samples.ready w) in
  reachable m /\ truthy (userInfo m) = true
  /\ getUserInfo m w = (Normal Samples.alice, m, w)
  /\ getUserInfo (manager (getUserInfo m w)) w = (Normal Samples.alice, m, w).
Proof.
  intros w m.
  assert (Hreach : reachable m)
    by apply reach_call, (reach_new Samples.sdk_present).
  split; [ exact Hreach | ].
  split; [ reflexivity | ].
  exact (getUserInfo_cached m w w Hreach eq_refl).
Defined.

(** ** Sign-out *)

(** C4.  On a ready instance, [signOut] returns [true] and clears the
    cached identity ([isAuthenticated] is then [false]) when the vendor's
    [signOut] resolves; it returns [false] and keeps the cached identity
    when the vendor's [signOut] rejects. *)
Theorem signOut_clears_on_success (m : FunticoManager) (w : Env) :
  reachable m -> isReady m = true ->
  let r := signOut m w in
  match vendor w (calls w) (VSignOut (href (location w))) with
  | Resolved _ =>
      result r = Normal true
      /\ userInfo (manager r) = JNull
      /\ isAuthenticated (manager r) = false
  | Rejected _ =>
      result r = Normal false
      /\ userInfo (manager r) = userInfo m
  end.
Proof.
  intros Hreach Hready r.
  pose proof (consistent_ready m (reachable_consistent m Hreach) Hready) as Hsdk.
  subst r. unfold signOut, bind, this, window, try_catch, sdk_call.
  rewrite Hready; simpl. rewrite Hsdk.
  destruct (vendor w (calls w) (VSignOut (href (location w))));
    repeat split; reflexivity.
Qed.

Lemma signOut_clears_on_success_witness :
  let w := Samples.page (Samples.with_query "?code=abc123" [("code", "abc123")]) Samples.vendor_ok in
  let m := manager (call OpHandleCallback Samples.ready w) in
  let failing := Samples.page Samples.external (Samples.vendor_failing JNull) in
  reachable m /\ isReady m = true
  /\ userInfo m = Samples.alice
  /\ (result (signOut m w) = Normal true
      /\ userInfo (manager (signOut m w)) = JNull
      /\ isAuthenticated (manager (signOut m w)) = false)
  /\ (result (signOut m failing) = Normal false
      /\ userInfo (manager (signOut m failing)) = userInfo m).
Proof.
  intros w m failing.
  assert (Hreach : reachable m)
    by apply reach_call, (reach_new Samples.sdk_present).
  split; [ exact Hreach | ].
  split; [ reflexivity | ].
  split; [ reflexivity | ].
  split.
  - exact (signOut_clears_on_success m w Hreach eq_refl).
  - exact (signOut_clears_on_success m failing Hreach eq_refl).
Defined.

(** ** Score submission *)

(** C5.  On a ready instance [saveScore] resolves to [true] whether the
    vendor's [saveScore] resolves or rejects; it never resolves to [false]
    and never throws. *)
Theorem saveScore_always_true (m : FunticoManager) (w : Env) (score : Z) :
  isReady m = true ->
  result (saveScore score m w) = Normal true.
Proof.
  intros Hready.
  unfold saveScore, bind, this, try_catch, sdk_call.
  rewrite Hready; simpl.
  destruct (sdk m); try reflexivity.
  destruct (vendor w (calls w) (VSaveScore score)); reflexivity.
Qed.

Lemma saveScore_always_true_witness :
  let ok := Samples.page Samples.external Samples.vendor_ok in
  let failing := Samples.page Samples.external (Samples.vendor_failing JUndefined) in
  isReady Samples.ready = true
  /\ result (saveScore 1200 Samples.ready ok) = Normal true
  /\ result (saveScore 1200 Samples.ready failing) = Normal true.
Proof.
  intros ok failing.
  split; [ reflexivity | ].
  split.
  - exact (saveScore_always_true Samples.ready ok 1200%Z eq_refl).
  - exact (saveScore_always_true Samples.ready failing 1200%Z eq_refl).
Defined.

(** ** OAuth callback *)

(** An [error] parameter with an empty value is not seen by [if (error)]:
    with a [code] next to it the exchange goes ahead, the call returns
    [true] and the cached identity is replaced. *)
Lemma handleCallback_empty_error_counterexample :
  let w := Samples.page (Samples.with_query "?error=&code=abc123" [("error", ""); ("code", "abc123")])
                        Samples.vendor_ok in
  let r := handleCallback Samples.ready w in
  (exists v, In ("error", v) (searchParams (location w)))
  /\ ~ (result r = Normal false /\ userInfo (manager r) = userInfo Samples.ready).
Proof.
  cbv zeta. split.
  - exists "". left. reflexivity.
  - intros [H _]. vm_compute in H. discriminate.
Qed.

(** An accepted rewrite leaves no query. *)
Lemma rewritten_no_query l l' :
  rewritten l = Some l' ->
  searchParams l' = [] /\ hostname l' = hostname l /\ origin l' = origin l
  /\ href l' = origin l ++ pathname l'.
Proof.
  unfold rewritten.
  destruct (if String.prefix "//" (pathname l)
            then same_origin_path l (pathname l)
            else Some (pathname l)) as [p | ]; [ | discriminate ].
  intros H. injection H as <-. repeat split; reflexivity.
Qed.

(** A path with a single leading slash is always accepted. *)
Lemma rewritten_single_slash l :
  String.prefix "//" (pathname l) = false ->
  rewritten l =
    Some (mkLocation (hostname l) (origin l) (pathname l)
                     (origin l ++ pathname l) [] (same_origin_path l)).
Proof. unfold rewritten. intros ->. reflexivity. Qed.

(** Where the browser refuses the rewrite, the identity is already
    assigned when [replaceState] throws: the call returns [false] with the
    fetched identity cached and the query still in the address. *)
Remark handleCallback_refused_rewrite :
  let w := Samples.page (Samples.foreign_path "?code=abc123" [("code", "abc123")])
                        Samples.vendor_ok in
  let r := handleCallback Samples.ready w in
  rewritten (location w) = None
  /\ result r = Normal false
  /\ userInfo (manager r) = Samples.alice
  /\ location (env r) = location w.
Proof. cbv zeta. repeat split; reflexivity. Qed.

(** C6, amended.  A non-empty first [error] parameter: [false], nothing
    changes.  Otherwise a non-empty first [code] parameter whose exchange
    and the identity fetch after it both resolve, on a page whose rewrite
    to its path the browser accepts: [true], the fetched identity is cached
    and the address is the accepted one, which has no query.  Neither
    parameter with a non-empty value: [false], nothing changes. *)
Theorem handleCallback_by_parameters (m : FunticoManager) (w : Env) :
  let ps := searchParams (location w) in
  let r := handleCallback m w in
  (forall e, params_get "error" ps = Some e -> e <> "" ->
     r = (Normal false, m, w))
  /\ (forall c t v l,
        truthy_param (params_get "error" ps) = false ->
        params_get "code" ps = Some c -> c <> "" ->
        resolves m w (VExchangeCodeForToken c) t ->
        resolves m (record_call (VExchangeCodeForToken c) w) VGetUserInfo v ->
        rewritten (location w) = Some l ->
        result r = Normal true
        /\ userInfo (manager r) = v
        /\ location (env r) = l
        /\ searchParams (location (env r)) = [])
  /\ (truthy_param (params_get "error" ps) = false ->
      truthy_param (params_get "code" ps) = false ->
      r = (Normal false, m, w)).
Proof.
  intros ps r. subst r. unfold handleCallback, bind, window. fold ps.
  split; [ | split ].
  - intros e He Hne. rewrite He. simpl.
    destruct (String.eqb_spec e ""); [ contradiction | reflexivity ].
  - intros c t v l Herr Hcode Hne [Hsdk Hex] [_ Hget] Hrewrite.
    rewrite Herr, Hcode. simpl.
    destruct (String.eqb_spec c ""); [ contradiction | ]. simpl.
    destruct m as [h i u]; simpl in Hsdk; subst h.
    unfold try_catch, sdk_call. cbn [sdk].
    rewrite Hex. cbn [sdk]. rewrite Hget.
    unfold replaceState_pathname, set_userInfo.
    cbn [location record_call]. rewrite Hrewrite.
    repeat split; try reflexivity.
    apply (rewritten_no_query _ _ Hrewrite).
  - intros Herr Hcode. rewrite Herr.
    destruct (params_get "code" ps) as [c | ]; [ | reflexivity ].
    rewrite Hcode. reflexivity.
Qed.

Lemma handleCallback_by_parameters_witness :
  let denied := Samples.page (Samples.with_query "?error=access_denied" [("error", "access_denied")])
                             Samples.vendor_ok in
  let granted := Samples.page (Samples.with_query "?code=abc123" [("code", "abc123")])
                              Samples.vendor_ok in
  let plain := Samples.page Samples.external Samples.vendor_ok in
  let m := Samples.ready in
  handleCallback m denied = (Normal false, m, denied)
  /\ (rewritten (location granted) = Some Samples.external
      /\ result (handleCallback m granted) = Normal true
      /\ userInfo (manager (handleCallback m granted)) = Samples.alice
      /\ location (env (handleCallback m granted)) = Samples.external
      /\ searchParams (location (env (handleCallback m granted))) = [])
  /\ handleCallback m plain = (Normal false, m, plain).
Proof.
  intros denied granted plain m.
  split; [ | split ].
  - apply (proj1 (handleCallback_by_parameters m denied) "access_denied").
    + reflexivity.
    + discriminate.
  - split; [ reflexivity | ].
    apply (proj1 (proj2 (handleCallback_by_parameters m granted))
             "abc123" JUndefined Samples.alice Samples.external).
    + reflexivity.
    + reflexivity.
    + discriminate.
    + split; reflexivity.
    + split; reflexivity.
    + reflexivity.
  - apply (proj2 (proj2 (handleCallback_by_parameters m plain))); reflexivity.
Defined.

(** ** No operation throws *)

Lemma never_throws_ret {A} (a : A) : never_throws (ret a).
Proof. intros m w. exists a. reflexivity. Qed.

Lemma never_throws_bind {A B} (c : M A) (k : A -> M B) :
  never_throws c -> (forall a, never_throws (k a)) -> never_throws (bind c k).
Proof.
  intros Hc Hk m w. unfold bind.
  destruct (Hc m w) as [a Ha]. unfold result in Ha.
  destruct (c m w) as [[r m'] w']; simpl in Ha; subst r.
  apply Hk.
Qed.

(** A [try] whose [catch] block cannot throw. *)
Lemma never_throws_try_catch {A} (c : M A) (h : JsValue -> M A) :
  (forall e, never_throws (h e)) -> never_throws (try_catch c h).
Proof.
  intros Hh m w. unfold try_catch.
  destruct (c m w) as [[[a | e] m'] w'].
  - exists a. reflexivity.
  - apply Hh.
Qed.

Lemma never_throws_this : never_throws this.
Proof. intros m w. exists m. reflexivity. Qed.

Lemma never_throws_window : never_throws window.
Proof. intros m w. exists w. reflexivity. Qed.

Lemma never_throws_accessor {A} (f : FunticoManager -> A) : never_throws (accessor f).
Proof. intros m w. exists (f m). reflexivity. Qed.

Lemma signIn_attempt_without_handle m w :
  sdk m <> SdkHandle -> signIn_attempt m w = (Normal false, m, w).
Proof.
  intros Hsdk. destruct m as [h i u]; simpl in Hsdk.
  destruct h; [ reflexivity | reflexivity | congruence ].
Qed.

Lemma never_throws_signIn_attempt : never_throws signIn_attempt.
Proof.
  intros m w. destruct (sdk m) eqn:Hsdk.
  - exists false. rewrite signIn_attempt_without_handle by congruence. reflexivity.
  - exists false. rewrite signIn_attempt_without_handle by congruence. reflexivity.
  - exists true. apply signIn_attempt_keeps_identity, Hsdk.
Qed.

Lemma never_throws_getUserInfo_failed e : never_throws (getUserInfo_failed e).
Proof.
  unfold getUserInfo_failed. cbv zeta.
  destruct (isSDKError e); [ | apply never_throws_ret ].
  destruct (is_string _ _); [ apply never_throws_ret | ].
  destruct (is_string _ _); apply never_throws_ret.
Qed.

Create HintDb total.
#[local] Hint Resolve never_throws_ret never_throws_this never_throws_window
  never_throws_accessor never_throws_signIn_attempt
  never_throws_getUserInfo_failed : total.

Ltac total :=
  repeat first
    [ solve [ auto with total ]
    | apply never_throws_bind; [ | intro ]
    | apply never_throws_try_catch; intro
    | match goal with
      | |- never_throws (if ?b then _ else _) => destruct b
      | |- never_throws (match ?x with _ => _ end) => destruct x
      end ].

(** C7.  Every public operation, on every instance (ready or not) and in
    every environment, completes normally with a value. *)
Theorem operations_never_throw (op : Op) (m : FunticoManager) (w : Env) :
  exists v, result (call op m w) = Normal v.
Proof.
  revert m w. change (never_throws (call op)).
  destruct op; unfold call, returning, signIn, signIn_existing_session,
    getUserInfo, saveScore, getLeaderboard, signOut, handleCallback;
    total.
Qed.

(** ** Accessors *)

(** [isAuthenticated] compares with [null] only. *)
Lemma isAuthenticated_not_null m :
  isAuthenticated m = true <-> userInfo m <> JNull.
Proof.
  unfold isAuthenticated. destruct (userInfo m); simpl; split;
    congruence || discriminate || auto.
Qed.

(** C8.  After a callback whose identity fetch resolves to [undefined] the
    cached value is [undefined]: [getUserInfo] and [signIn] treat it as no
    identity, [getUsername] answers the guest label, and [isAuthenticated]
    answers [true]. *)
Theorem isAuthenticated_without_identity :
  let w := Samples.page (Samples.with_query "?code=abc123" [("code", "abc123")]) Samples.vendor_no_session in
  let m := manager (call OpHandleCallback Samples.ready w) in
  reachable m
  /\ userInfo m = JUndefined
  /\ truthy (userInfo m) = false
  /\ getUsername m = JStr "Guest"
  /\ calls (env (getUserInfo m w)) = [VGetUserInfo]
  /\ isAuthenticated m = true.
Proof.
  cbv zeta. split.
  - apply reach_call, (reach_new Samples.sdk_present).
  - repeat split; reflexivity.
Qed.

Lemma getUsername_empty_counterexample :
  let w := Samples.page (Samples.with_query "?code=abc123" [("code", "abc123")]) Samples.vendor_nameless in
  let m := manager (call OpHandleCallback Samples.ready w) in
  reachable m
  /\ truthy (userInfo m) = true
  /\ prop (userInfo m) "username" = JStr ""
  /\ getUsername m <> prop (userInfo m) "username".
Proof.
  cbv zeta. split.
  - apply reach_call, (reach_new Samples.sdk_present).
  - repeat split; try reflexivity. vm_compute. discriminate.
Qed.

(** C9, amended.  [getUsername] answers the cached identity's [username]
    when an identity is cached and that field is truthy; it answers
    ["Guest"] when no identity is cached and also when the field is empty
    or missing. *)
Theorem getUsername_or_guest (m : FunticoManager) :
  getUsername m =
    if truthy (userInfo m) && truthy (prop (userInfo m) "username")
    then prop (userInfo m) "username"
    else JStr "Guest".
Proof.
  unfold getUsername, js_or, opt_prop.
  destruct (userInfo m) as [ | | b | n | s | items | fields ]; simpl;
    try reflexivity.
  - destruct b; reflexivity.
  - destruct (Z.eqb n 0); reflexivity.
  - destruct (String.eqb s ""); reflexivity.
Qed.

(** * Further properties of the adapter *)

(** ** What each operation does on an instance that holds a handle *)

Lemma getUserInfo_failed_null e m w : getUserInfo_failed e m w = (Normal JNull, m, w).
Proof.
  unfold getUserInfo_failed. cbv zeta.
  destruct (isSDKError e); [ | reflexivity ].
  destruct (is_string _ _); [ reflexivity | ].
  destruct (is_string _ _); reflexivity.
Qed.

Lemma ready_handle_fields m :
  isReady m = true -> sdk m = SdkHandle ->
  m = mkManager SdkHandle true (userInfo m).
Proof.
  destruct m as [h i u]. unfold isReady. simpl. intros Hready ->.
  destruct i; [ reflexivity | discriminate ].
Qed.

Lemma reachable_ready m :
  reachable m -> isReady m = true -> sdk m = SdkHandle.
Proof. intros Hreach. apply consistent_ready, reachable_consistent, Hreach. Qed.

Section WithHandle.
Variables (m : FunticoManager) (w : Env).
Hypothesis ready : isReady m = true.
Hypothesis handle : sdk m = SdkHandle.

Lemma saveScore_exact score :
  saveScore score m w = (Normal true, m, record_call (VSaveScore score) w).
Proof.
  rewrite (ready_handle_fields m ready handle).
  unfold saveScore, bind, this, try_catch, sdk_call. cbn.
  destruct (vendor w (calls w) (VSaveScore score)); reflexivity.
Qed.

Lemma getLeaderboard_exact :
  getLeaderboard m w =
    match vendor w (calls w) VGetLeaderboard with
    | Resolved v => (Normal v, m, record_call VGetLeaderboard w)
    | Rejected _ => (Normal (JArr []), m, record_call VGetLeaderboard w)
    end.
Proof.
  rewrite (ready_handle_fields m ready handle).
  unfold getLeaderboard, bind, this, try_catch, sdk_call. cbn.
  destruct (vendor w (calls w) VGetLeaderboard); reflexivity.
Qed.

Lemma signOut_exact :
  signOut m w =
    match vendor w (calls w) (VSignOut (href (location w))) with
    | Resolved _ =>
        (Normal true, with_userInfo m JNull,
         record_call (VSignOut (href (location w))) w)
    | Rejected _ =>
        (Normal false, m, record_call (VSignOut (href (location w))) w)
    end.
Proof.
  rewrite (ready_handle_fields m ready handle).
  unfold signOut, bind, this, window, try_catch, sdk_call. cbn.
  destruct (vendor w (calls w) (VSignOut (href (location w)))); reflexivity.
Qed.

Lemma getUserInfo_exact :
  getUserInfo m w =
    if truthy (userInfo m) then (Normal (userInfo m), m, w)
    else match vendor w (calls w) VGetUserInfo with
         | Resolved v => (Normal v, with_userInfo m v, record_call VGetUserInfo w)
         | Rejected _ => (Normal JNull, m, record_call VGetUserInfo w)
         end.
Proof.
  rewrite (ready_handle_fields m ready handle).
  unfold getUserInfo, bind, this, try_catch, sdk_call. cbn.
  destruct (truthy (userInfo m)); [ reflexivity | ].
  destruct (vendor w (calls w) VGetUserInfo); [ reflexivity | ].
  apply getUserInfo_failed_null.
Qed.

Lemma signIn_exact :
  signIn m w =
    if includes (hostname (location w)) "funtico.com" then
      match vendor w (calls w) VGetUserInfo with
      | Resolved v =>
          if truthy v && stringifies (prop v "username")
          then (Normal true, with_userInfo m v, record_call VGetUserInfo w)
          else signIn_attempt (with_userInfo m v) (record_call VGetUserInfo w)
      | Rejected _ => signIn_attempt m (record_call VGetUserInfo w)
      end
    else signIn_attempt m w.
Proof.
  rewrite (ready_handle_fields m ready handle).
  unfold signIn, bind, this, window. cbn.
  destruct (includes (hostname (location w)) "funtico.com"); [ | reflexivity ].
  unfold signIn_existing_session, try_catch, bind, sdk_call, set_userInfo. cbn.
  destruct (vendor w (calls w) VGetUserInfo) as [v | e]; [ | reflexivity ].
  cbn [ret]. destruct (truthy v); [ | reflexivity ].
  unfold template_literal.
  destruct (stringifies (prop v "username")); reflexivity.
Qed.
End WithHandle.

Lemma handleCallback_exact m w :
  sdk m = SdkHandle ->
  handleCallback m w =
    if truthy_param (params_get "error" (searchParams (location w)))
    then (Normal false, m, w)
    else
      match params_get "code" (searchParams (location w)) with
      | Some c =>
          if String.eqb c "" then (Normal false, m, w)
          else
            let exchange := VExchangeCodeForToken c in
            match vendor w (calls w) exchange with
            | Resolved _ =>
                match vendor w (calls w ++ [exchange]) VGetUserInfo with
                | Resolved v =>
                    match rewritten (location w) with
                    | Some l =>
                        (Normal true, with_userInfo m v,
                         mkEnv l (vendor w)
                               (calls w ++ [exchange; VGetUserInfo])
                               (navigations w) (alerts w))
                    | None =>
                        (Normal false, with_userInfo m v,
                         record_call VGetUserInfo (record_call exchange w))
                    end
                | Rejected _ =>
                    (Normal false, m,
                     record_call VGetUserInfo (record_call exchange w))
                end
            | Rejected _ => (Normal false, m, record_call exchange w)
            end
      | None => (Normal false, m, w)
      end.
Proof.
  intros Hsdk. destruct m as [h i u]; simpl in Hsdk; subst h.
  unfold handleCallback, bind, window.
  destruct (truthy_param (params_get "error" (searchParams (location w))));
    [ reflexivity | ].
  destruct (params_get "code" (searchParams (location w))) as [c | ];
    [ | reflexivity ].
  cbn [truthy_param]. destruct (String.eqb c ""); [ reflexivity | ].
  cbn [negb]. unfold try_catch, bind, sdk_call. cbn.
  destruct (vendor w (calls w) (VExchangeCodeForToken c)); [ | reflexivity ].
  cbn [sdk vendor calls record_call].
  destruct (vendor w (calls w ++ [VExchangeCodeForToken c]) VGetUserInfo);
    [ | reflexivity ].
  unfold replaceState_pathname, with_userInfo, set_userInfo.
  cbn [sdk isInitialized userInfo location vendor calls navigations alerts
       record_call].
  destruct (rewritten (location w)); [ | reflexivity ].
  cbn. rewrite <- app_assoc. reflexivity.
Qed.

Lemma issued_app {A} (w : Env) (r : Completion A * FunticoManager * Env) l :
  calls (env r) = (calls w ++ l)%list -> issued w r = l.
Proof.
  unfold issued. intros ->.
  induction (calls w) as [ | c cs IH ]; simpl; [ reflexivity | exact IH ].
Qed.

Lemma prefix_app (s t : string) : String.prefix s (s ++ t) = true.
Proof.
  induction s as [ | c s IH ]; simpl.
  - destruct t; reflexivity.
  - destruct (ascii_dec c c); [ exact IH | congruence ].
Qed.

Lemma includes_prefix (hay needle : string) :
  String.prefix needle hay = true -> includes hay needle = true.
Proof. intros H. destruct hay; cbn [includes]; rewrite H; reflexivity. Qed.

Lemma includes_app (pre s post : string) : includes (pre ++ s ++ post) s = true.
Proof.
  induction pre as [ | c pre IH ].
  - cbn [append]. apply includes_prefix. exact (prefix_app s post).
  - cbn [append includes]. rewrite IH.
    destruct (String.prefix s (String c (pre ++ s ++ post))); reflexivity.
Qed.

(** ** Construction *)

(** X1.  Construction never throws: a failure of [new FunticoSDK] is
    swallowed.  The new instance is ready exactly when the vendor
    constructor returned, and it starts without a cached identity. *)
Theorem constructor_outcome (FunticoSDK : SdkConfig -> Completion unit) (w : Env) :
  let m := constructor FunticoSDK w in
  result (initializeSDK FunticoSDK fresh w) = Normal tt
  /\ isReady m = match FunticoSDK (sdk_config (location w)) with
                | Normal _ => true
                | Throw _ => false
                end
  /\ userInfo m = JNull
  /\ isAuthenticated m = false.
Proof.
  unfold constructor, initializeSDK, try_catch, bind, window, new_FunticoSDK,
    manager, result.
  destruct (FunticoSDK (sdk_config (location w))) as [ [] | e ];
    repeat split; reflexivity.
Qed.

(** X2.  The vendor client is asked to log in automatically only on the
    production environment, never on the sandbox. *)
Theorem autoLogin_only_in_production (l : Location) :
  autoLogin (sdk_config l) = true -> env_tag (sdk_config l) = "production".
Proof.
  unfold sdk_config. cbn [autoLogin env_tag]. intros ->.
  rewrite orb_true_r. reflexivity.
Qed.

Lemma autoLogin_only_in_production_witness :
  autoLogin (sdk_config Samples.hosted) = true
  /\ env_tag (sdk_config Samples.hosted) = "production".
Proof.
  split; [ reflexivity | ].
  apply autoLogin_only_in_production. reflexivity.
Defined.

(** X3.  The vendor-hosted test is a substring test on the host name:
    every host name that contains [funtico.com] anywhere, also in front of
    another domain, gets automatic login and the production environment. *)
Theorem hosted_test_is_substring (before after o p h : string)
                                 (ps : list (string * string))
                                 (parser : string -> option string) :
  let l := mkLocation (before ++ "funtico.com" ++ after) o p h ps parser in
  autoLogin (sdk_config l) = true /\ env_tag (sdk_config l) = "production".
Proof.
  cbv zeta. unfold sdk_config. cbn [autoLogin env_tag hostname].
  rewrite includes_app, orb_true_r. split; reflexivity.
Qed.

(** ** Sign-in *)

(** X4.  [signIn] answers whether the instance is ready: on a ready
    instance it returns [true] whatever the vendor does, so its [false]
    never reports a failed login. *)
Theorem signIn_returns_readiness (m : FunticoManager) (w : Env) :
  reachable m -> result (signIn m w) = Normal (isReady m).
Proof.
  intros Hreach. destruct (isReady m) eqn:Hready.
  - pose proof (reachable_ready m Hreach Hready) as Hsdk.
    rewrite (signIn_exact m w Hready Hsdk).
    destruct (includes (hostname (location w)) "funtico.com").
    + destruct (vendor w (calls w) VGetUserInfo) as [v | e].
      * destruct (truthy v && stringifies (prop v "username")); [ reflexivity | ].
        apply signIn_attempt_keeps_identity. exact Hsdk.
      * apply signIn_attempt_keeps_identity. exact Hsdk.
    + apply signIn_attempt_keeps_identity. exact Hsdk.
  - rewrite signIn_not_ready by exact Hready. reflexivity.
Qed.

Lemma signIn_returns_readiness_witness :
  let w := Samples.page Samples.external Samples.vendor_signed_out in
  reachable Samples.ready /\ reachable Samples.not_ready
  /\ result (signIn Samples.ready w) = Normal true
  /\ result (signIn Samples.not_ready w) = Normal false.
Proof.
  intros w.
  assert (H1 : reachable Samples.ready) by apply (reach_new Samples.sdk_present).
  assert (H2 : reachable Samples.not_ready) by apply (reach_new Samples.sdk_missing).
  split; [ exact H1 | ].
  split; [ exact H2 | ].
  split.
  - exact (signIn_returns_readiness Samples.ready w H1).
  - exact (signIn_returns_readiness Samples.not_ready w H2).
Defined.

(** X5.  Away from the vendor's domain a ready [signIn] issues exactly one
    vendor call, [signInWithFuntico] with the page origin followed by a
    slash, and never [getUserInfo]; it leaves the instance as it was.  It
    assigns the hand-built login address once if that call rejected, and
    does not navigate if it resolved. *)
Theorem signIn_external_host (m : FunticoManager) (w : Env) :
  reachable m -> isReady m = true ->
  includes (hostname (location w)) "funtico.com" = false ->
  let callbackUrl := origin (location w) ++ "/" in
  let r := signIn m w in
  manager r = m
  /\ issued w r = [VSignInWithFuntico callbackUrl]
  /\ navigations (env r) =
       match vendor w (calls w) (VSignInWithFuntico callbackUrl) with
       | Resolved _ => navigations w
       | Rejected _ => (navigations w ++ [login_url callbackUrl])%list
       end
  /\ location (env r) = location w.
Proof.
  intros Hreach Hready Hhost callbackUrl r.
  pose proof (reachable_ready m Hreach Hready) as Hsdk.
  subst r. rewrite (signIn_exact m w Hready Hsdk), Hhost.
  rewrite (signIn_attempt_with_handle m w Hsdk). fold callbackUrl.
  destruct (vendor w (calls w) (VSignInWithFuntico callbackUrl));
    repeat split; try reflexivity; apply issued_app; reflexivity.
Qed.

Lemma signIn_external_host_witness :
  let w := Samples.page Samples.external Samples.vendor_signed_out in
  let r := signIn Samples.ready w in
  reachable Samples.ready /\ isReady Samples.ready = true
  /\ includes (hostname (location w)) "funtico.com" = false
  /\ manager r = Samples.ready
  /\ issued w r = [VSignInWithFuntico "https://avalanche-knight.vercel.app/"]
  /\ navigations (env r) = [login_url "https://avalanche-knight.vercel.app/"]
  /\ location (env r) = location w.
Proof.
  intros w r.
  assert (H1 : reachable Samples.ready) by apply (reach_new Samples.sdk_present).
  split; [ exact H1 | ].
  split; [ reflexivity | ].
  split; [ reflexivity | ].
  exact (signIn_external_host Samples.ready w H1 eq_refl eq_refl).
Defined.

(** X6.  On the vendor's domain a ready [signIn] first asks the vendor for
    the identity and stores whatever it resolves to, replacing the cached
    identity also when the answer is empty.  The call ends after that
    single vendor call when the answer is non-empty and its [username] can
    be converted to a string for the log line.  An empty answer, a
    [username] whose conversion throws, or a rejection is followed by
    [signInWithFuntico]; a rejection leaves the cached identity as it
    was. *)
Theorem signIn_hosted_session (m : FunticoManager) (w : Env) :
  reachable m -> isReady m = true ->
  includes (hostname (location w)) "funtico.com" = true ->
  let callbackUrl := origin (location w) ++ "/" in
  let r := signIn m w in
  match vendor w (calls w) VGetUserInfo with
  | Resolved v =>
      userInfo (manager r) = v
      /\ issued w r = if truthy v && stringifies (prop v "username")
                      then [VGetUserInfo]
                      else [VGetUserInfo; VSignInWithFuntico callbackUrl]
  | Rejected _ =>
      userInfo (manager r) = userInfo m
      /\ issued w r = [VGetUserInfo; VSignInWithFuntico callbackUrl]
  end.
Proof.
  intros Hreach Hready Hhost callbackUrl r.
  pose proof (reachable_ready m Hreach Hready) as Hsdk.
  subst r. rewrite (signIn_exact m w Hready Hsdk), Hhost.
  destruct (vendor w (calls w) VGetUserInfo) as [v | e].
  - destruct (truthy v && stringifies (prop v "username")).
    + split; [ reflexivity | apply issued_app; reflexivity ].
    + rewrite signIn_attempt_with_handle by exact Hsdk.
      cbn [location record_call calls vendor]. fold callbackUrl.
      destruct (vendor w (calls w ++ [VGetUserInfo]) (VSignInWithFuntico callbackUrl));
        (split; [ reflexivity | apply issued_app; cbn; rewrite <- app_assoc; reflexivity ]).
  - rewrite signIn_attempt_with_handle by exact Hsdk.
    cbn [location record_call calls vendor]. fold callbackUrl.
    destruct (vendor w (calls w ++ [VGetUserInfo]) (VSignInWithFuntico callbackUrl));
      (split; [ reflexivity | apply issued_app; cbn; rewrite <- app_assoc; reflexivity ]).
Qed.

Lemma signIn_hosted_session_witness :
  let session := Samples.page Samples.hosted Samples.vendor_ok in
  let none := Samples.page Samples.hosted Samples.vendor_no_session in
  let odd := Samples.page Samples.hosted Samples.vendor_unprintable in
  let m := manager (call OpHandleCallback Samples.ready
             (Samples.page (Samples.with_query "?code=abc123" [("code", "abc123")])
                           Samples.vendor_ok)) in
  reachable m /\ isReady m = true
  /\ includes (hostname Samples.hosted) "funtico.com" = true
  /\ userInfo m = Samples.alice
  /\ (userInfo (manager (signIn m session)) = Samples.alice
      /\ issued session (signIn m session) = [VGetUserInfo])
  /\ (userInfo (manager (signIn m none)) = JUndefined
      /\ issued none (signIn m none)
         = [VGetUserInfo; VSignInWithFuntico "https://play.funtico.com/"])
  /\ (userInfo (manager (signIn m odd)) = Samples.unprintable
      /\ issued odd (signIn m odd)
         = [VGetUserInfo; VSignInWithFuntico "https://play.funtico.com/"]).
Proof.
  intros session none odd m.
  assert (H1 : reachable m) by apply reach_call, (reach_new Samples.sdk_present).
  split; [ exact H1 | ].
  split; [ reflexivity | ].
  split; [ reflexivity | ].
  split; [ reflexivity | ].
  split; [ | split ].
  - exact (signIn_hosted_session m session H1 eq_refl eq_refl).
  - exact (signIn_hosted_session m none H1 eq_refl eq_refl).
  - exact (signIn_hosted_session m odd H1 eq_refl eq_refl).
Defined.

(** ** Identity lookup, scores, leaderboard *)

(** X7.  Without a cached identity a ready [getUserInfo] issues exactly
    one vendor call.  What the vendor resolves to is returned and stored,
    empty or not; a rejection of any shape, structured or not, gives [null]
    and leaves the instance as it was. *)
Theorem getUserInfo_miss (m : FunticoManager) (w : Env) :
  reachable m -> isReady m = true -> truthy (userInfo m) = false ->
  let r := getUserInfo m w in
  issued w r = [VGetUserInfo]
  /\ match vendor w (calls w) VGetUserInfo with
     | Resolved v => result r = Normal v /\ manager r = with_userInfo m v
     | Rejected _ => result r = Normal JNull /\ manager r = m
     end.
Proof.
  intros Hreach Hready Hempty r.
  pose proof (reachable_ready m Hreach Hready) as Hsdk.
  subst r. rewrite (getUserInfo_exact m w Hready Hsdk), Hempty.
  destruct (vendor w (calls w) VGetUserInfo);
    (split; [ apply issued_app; reflexivity | split; reflexivity ]).
Qed.

Lemma getUserInfo_miss_witness :
  let ok := Samples.page Samples.external Samples.vendor_ok in
  let failing := Samples.page Samples.external Samples.vendor_signed_out in
  let m := Samples.ready in
  reachable m /\ isReady m = true /\ truthy (userInfo m) = false
  /\ (issued ok (getUserInfo m ok) = [VGetUserInfo]
      /\ result (getUserInfo m ok) = Normal Samples.alice
      /\ manager (getUserInfo m ok) = with_userInfo m Samples.alice)
  /\ (issued failing (getUserInfo m failing) = [VGetUserInfo]
      /\ result (getUserInfo m failing) = Normal JNull
      /\ manager (getUserInfo m failing) = m).
Proof.
  intros ok failing m.
  assert (H1 : reachable m) by apply (reach_new Samples.sdk_present).
  split; [ exact H1 | ].
  split; [ reflexivity | ].
  split; [ reflexivity | ].
  split.
  - exact (getUserInfo_miss m ok H1 eq_refl eq_refl).
  - exact (getUserInfo_miss m failing H1 eq_refl eq_refl).
Defined.

(** X8.  Read-through: once a lookup has fetched a non-empty identity,
    the next lookup returns that identity from the cache, in whatever
    state the page and the vendor then are, and changes nothing. *)
Theorem getUserInfo_read_through (m : FunticoManager) (w w' : Env) (v : JsValue) :
  reachable m -> isReady m = true -> truthy (userInfo m) = false ->
  vendor w (calls w) VGetUserInfo = Resolved v -> truthy v = true ->
  let m' := manager (getUserInfo m w) in
  getUserInfo m' w' = (Normal v, m', w').
Proof.
  intros Hreach Hready Hempty Hget Hv m'.
  pose proof (reachable_ready m Hreach Hready) as Hsdk.
  assert (Hm' : m' = with_userInfo m v).
  { subst m'. rewrite (getUserInfo_exact m w Hready Hsdk), Hempty, Hget.
    reflexivity. }
  rewrite Hm'.
  rewrite (getUserInfo_exact (with_userInfo m v) w'); cbn [with_userInfo userInfo].
  - rewrite Hv. reflexivity.
  - unfold isReady in *. exact Hready.
  - exact Hsdk.
Qed.

Lemma getUserInfo_read_through_witness :
  let w := Samples.page Samples.external Samples.vendor_ok in
  let w' := Samples.page Samples.hosted Samples.vendor_signed_out in
  let m' := manager (getUserInfo Samples.ready w) in
  reachable Samples.ready /\ isReady Samples.ready = true
  /\ truthy (userInfo Samples.ready) = false
  /\ vendor w (calls w) VGetUserInfo = Resolved Samples.alice
  /\ truthy Samples.alice = true
  /\ getUserInfo m' w' = (Normal Samples.alice, m', w').
Proof.
  intros w w' m'.
  assert (H1 : reachable Samples.ready) by apply (reach_new Samples.sdk_present).
  split; [ exact H1 | ].
  split; [ reflexivity | ].
  split; [ reflexivity | ].
  split; [ reflexivity | ].
  split; [ reflexivity | ].
  exact (getUserInfo_read_through Samples.ready w w' Samples.alice
           H1 eq_refl eq_refl eq_refl eq_refl).
Defined.

(** X9.  A ready [getLeaderboard] issues exactly one vendor call and
    hands back what it resolved to, unchecked; a rejection gives the empty
    array.  The instance is not touched. *)
Theorem getLeaderboard_passthrough (m : FunticoManager) (w : Env) :
  reachable m -> isReady m = true ->
  let r := getLeaderboard m w in
  manager r = m
  /\ issued w r = [VGetLeaderboard]
  /\ result r = Normal match vendor w (calls w) VGetLeaderboard with
                       | Resolved v => v
                       | Rejected _ => JArr []
                       end.
Proof.
  intros Hreach Hready r.
  pose proof (reachable_ready m Hreach Hready) as Hsdk.
  subst r. rewrite (getLeaderboard_exact m w Hready Hsdk).
  destruct (vendor w (calls w) VGetLeaderboard);
    (split; [ reflexivity | split; [ apply issued_app; reflexivity | reflexivity ] ]).
Qed.

Lemma getLeaderboard_passthrough_witness :
  let ok := Samples.page Samples.external Samples.vendor_no_session in
  let failing := Samples.page Samples.external (Samples.vendor_failing JNull) in
  let m := Samples.ready in
  reachable m /\ isReady m = true
  /\ result (getLeaderboard m ok) = Normal (JObj [])
  /\ result (getLeaderboard m failing) = Normal (JArr []).
Proof.
  intros ok failing m.
  assert (H1 : reachable m) by apply (reach_new Samples.sdk_present).
  split; [ exact H1 | ].
  split; [ reflexivity | ].
  split.
  - apply (getLeaderboard_passthrough m ok H1 eq_refl).
  - apply (getLeaderboard_passthrough m failing H1 eq_refl).
Defined.

(** X10.  A ready [saveScore] forwards the score to the vendor exactly
    once, unchanged, and touches neither the instance nor the page; a
    rejected score is not kept anywhere. *)
Theorem saveScore_forwards_once (m : FunticoManager) (w : Env) (score : Z) :
  reachable m -> isReady m = true ->
  let r := saveScore score m w in
  manager r = m
  /\ issued w r = [VSaveScore score]
  /\ location (env r) = location w
  /\ navigations (env r) = navigations w
  /\ alerts (env r) = alerts w.
Proof.
  intros Hreach Hready r.
  pose proof (reachable_ready m Hreach Hready) as Hsdk.
  subst r. rewrite (saveScore_exact m w Hready Hsdk).
  repeat split. apply issued_app. reflexivity.
Qed.

Lemma saveScore_forwards_once_witness :
  let w := Samples.page Samples.external (Samples.vendor_failing JNull) in
  let r := saveScore (-5) Samples.ready w in
  reachable Samples.ready /\ isReady Samples.ready = true
  /\ manager r = Samples.ready
  /\ issued w r = [VSaveScore (-5)]
  /\ location (env r) = location w
  /\ navigations (env r) = navigations w
  /\ alerts (env r) = alerts w.
Proof.
  intros w r.
  assert (H1 : reachable Samples.ready) by apply (reach_new Samples.sdk_present).
  split; [ exact H1 | ].
  split; [ reflexivity | ].
  exact (saveScore_forwards_once Samples.ready w (-5)%Z H1 eq_refl).
Defined.

(** ** Sign-out *)

(** X11.  A ready [signOut] issues exactly one vendor call, [signOut] with
    the current address of the page as redirect target, whether it then
    succeeds or not; the adapter itself neither navigates nor rewrites the
    address. *)
Theorem signOut_vendor_call (m : FunticoManager) (w : Env) :
  reachable m -> isReady m = true ->
  let r := signOut m w in
  issued w r = [VSignOut (href (location w))]
  /\ location (env r) = location w
  /\ navigations (env r) = navigations w.
Proof.
  intros Hreach Hready r.
  pose proof (reachable_ready m Hreach Hready) as Hsdk.
  subst r. rewrite (signOut_exact m w Hready Hsdk).
  destruct (vendor w (calls w) (VSignOut (href (location w))));
    (split; [ apply issued_app; reflexivity | split; reflexivity ]).
Qed.

Lemma signOut_vendor_call_witness :
  let w := Samples.page (Samples.with_query "?code=abc123" [("code", "abc123")])
                        Samples.vendor_ok in
  let r := signOut Samples.ready w in
  reachable Samples.ready /\ isReady Samples.ready = true
  /\ issued w r = [VSignOut "https://avalanche-knight.vercel.app/?code=abc123"]
  /\ location (env r) = location w
  /\ navigations (env r) = navigations w.
Proof.
  intros w r.
  assert (H1 : reachable Samples.ready) by apply (reach_new Samples.sdk_present).
  split; [ exact H1 | ].
  split; [ reflexivity | ].
  exact (signOut_vendor_call Samples.ready w H1 eq_refl).
Defined.

(** X12.  After a [signOut] that the vendor accepted the accessors report
    a guest ([getUsername] is ["Guest"], [getUserId] is [null]) and the
    next [getUserInfo] goes back to the vendor. *)
Theorem signOut_invalidates_cache (m : FunticoManager) (w w' : Env) (v : JsValue) :
  reachable m -> isReady m = true ->
  vendor w (calls w) (VSignOut (href (location w))) = Resolved v ->
  let m' := manager (signOut m w) in
  getUsername m' = JStr "Guest"
  /\ getUserId m' = JNull
  /\ issued w' (getUserInfo m' w') = [VGetUserInfo].
Proof.
  intros Hreach Hready Hout m'.
  pose proof (reachable_ready m Hreach Hready) as Hsdk.
  assert (Hm' : m' = with_userInfo m JNull).
  { subst m'. rewrite (signOut_exact m w Hready Hsdk), Hout. reflexivity. }
  rewrite Hm'. repeat split.
  rewrite (getUserInfo_exact (with_userInfo m JNull) w');
    [ | exact Hready | exact Hsdk ].
  cbn [with_userInfo userInfo truthy].
  destruct (vendor w' (calls w') VGetUserInfo); apply issued_app; reflexivity.
Qed.

Lemma signOut_invalidates_cache_witness :
  let w := Samples.page Samples.external Samples.vendor_ok in
  let m := manager (getUserInfo Samples.ready w) in
  let m' := manager (signOut m w) in
  reachable m /\ isReady m = true
  /\ vendor w (calls w) (VSignOut (href (location w))) = Resolved JUndefined
  /\ getUsername m = JStr "alice"
  /\ getUsername m' = JStr "Guest"
  /\ getUserId m' = JNull
  /\ issued w (getUserInfo m' w) = [VGetUserInfo].
Proof.
  intros w m m'.
  assert (H1 : reachable m)
    by apply (reach_call OpGetUserInfo), (reach_new Samples.sdk_present).
  split; [ exact H1 | ].
  split; [ reflexivity | ].
  split; [ reflexivity | ].
  split; [ reflexivity | ].
  exact (signOut_invalidates_cache m w w JUndefined H1 eq_refl eq_refl).
Defined.

(** ** OAuth callback: failure, success, repetition *)

Lemma handleCallback_no_params m w :
  searchParams (location w) = [] -> handleCallback m w = (Normal false, m, w).
Proof.
  intros Hnone. unfold handleCallback, bind, window. rewrite Hnone. reflexivity.
Qed.

(** The only way to [true]. *)
Lemma handleCallback_true_inv m w :
  result (handleCallback m w) = Normal true ->
  exists c v,
    truthy_param (params_get "error" (searchParams (location w))) = false
    /\ params_get "code" (searchParams (location w)) = Some c
    /\ c <> ""
    /\ sdk m = SdkHandle
    /\ vendor w (calls w ++ [VExchangeCodeForToken c]) VGetUserInfo = Resolved v
    /\ searchParams (clean_location (location w)) = []
    /\ handleCallback m w =
         (Normal true, with_userInfo m v,
          mkEnv (clean_location (location w)) (vendor w)
                (calls w ++ [VExchangeCodeForToken c; VGetUserInfo])
                (navigations w) (alerts w)).
Proof.
  intros Htrue.
  destruct (sdk m) eqn:Hsdk;
    try (rewrite handleCallback_no_handle in Htrue by congruence; discriminate).
  rewrite (handleCallback_exact m w Hsdk) in Htrue |- *.
  destruct (truthy_param (params_get "error" (searchParams (location w))));
    [ discriminate | ].
  destruct (params_get "code" (searchParams (location w))) as [c | ];
    [ | discriminate ].
  destruct (String.eqb_spec c ""); [ discriminate | ].
  cbv zeta in Htrue |- *.
  destruct (vendor w (calls w) (VExchangeCodeForToken c)) as [token | e0];
    [ | discriminate ].
  destruct (vendor w (calls w ++ [VExchangeCodeForToken c]) VGetUserInfo)
    as [v | e] eqn:Hget; [ | discriminate ].
  unfold clean_location.
  destruct (rewritten (location w)) as [l | ] eqn:Hrewrite; [ | discriminate ].
  exists c, v. repeat split; auto.
  apply (rewritten_no_query _ _ Hrewrite).
Qed.





(** X15.  A callback is handled once: after a callback that returned
    [true] the query is gone, so calling [handleCallback] again on the same
    page returns [false], reaches no vendor code and changes nothing. *)
Theorem handleCallback_once (m : FunticoManager) (w : Env) :
  let r := handleCallback m w in
  result r = Normal true ->
  handleCallback (manager r) (env r) = (Normal false, manager r, env r).
Proof.
  intros r Htrue. subst r.
  destruct (handleCallback_true_inv m w Htrue)
    as (c & v & _ & _ & _ & _ & _ & Hnone & Hrun).
  rewrite Hrun. apply handleCallback_no_params. exact Hnone.
Qed.

Lemma handleCallback_once_witness :
  let w := Samples.page (Samples.with_query "?code=abc123" [("code", "abc123")])
                        Samples.vendor_ok in
  let r := handleCallback Samples.ready w in
  result r = Normal true
  /\ handleCallback (manager r) (env r) = (Normal false, manager r, env r).
Proof.
  intros w r.
  split; [ reflexivity | ].
  exact (handleCallback_once Samples.ready w eq_refl).
Defined.

(** ** Accessors *)

(** X16.  [getUsername] never returns an empty value: it is the cached
    [username] when that is truthy and ["Guest"] in every other case. *)
Theorem getUsername_never_empty (m : FunticoManager) :
  truthy (getUsername m) = true
  /\ (getUsername m = JStr "Guest" \/ getUsername m = prop (userInfo m) "username").
Proof.
  unfold getUsername, js_or.
  destruct (truthy (opt_prop (userInfo m) "username")) eqn:Hname.
  - split; [ exact Hname | right ].
    unfold opt_prop in *. destruct (userInfo m); try discriminate; reflexivity.
  - split; [ reflexivity | left; reflexivity ].
Qed.

(** X17.  [getUserId] returns [null] or a truthy [user_id]: an id that is
    [0], empty or missing is reported as [null]. *)
Theorem getUserId_null_or_truthy (m : FunticoManager) :
  getUserId m = JNull
  \/ (truthy (getUserId m) = true /\ getUserId m = prop (userInfo m) "user_id").
Proof.
  unfold getUserId, js_or.
  destruct (truthy (opt_prop (userInfo m) "user_id")) eqn:Hid.
  - right. split; [ exact Hid | ].
    unfold opt_prop in *. destruct (userInfo m); try discriminate; reflexivity.
  - left. reflexivity.
Qed.

(** X18.  The accessors agree on a guest: whenever [isAuthenticated] is
    [false], [getUsername] is ["Guest"] and [getUserId] is [null]. *)
Theorem unauthenticated_is_guest (m : FunticoManager) :
  isAuthenticated m = false ->
  getUsername m = JStr "Guest" /\ getUserId m = JNull.
Proof.
  unfold isAuthenticated, getUsername, getUserId.
  destruct (userInfo m); simpl; try discriminate.
  intros _. split; reflexivity.
Qed.

Lemma unauthenticated_is_guest_witness :
  isAuthenticated Samples.ready = false
  /\ getUsername Samples.ready = JStr "Guest"
  /\ getUserId Samples.ready = JNull.
Proof.
  split; [ reflexivity | ].
  exact (unauthenticated_is_guest Samples.ready eq_refl).
Defined.

(** ** What a call can do to the page and to the vendor *)

Lemma returning_run {A} (inj : A -> JsValue) (c : M A) m w :
  manager (returning inj c m w) = manager (c m w)
  /\ env (returning inj c m w) = env (c m w)
  /\ result (returning inj c m w) =
       match result (c m w) with
       | Normal a => Normal (inj a)
       | Throw e => Throw e
       end.
Proof.
  unfold returning, bind, ret, manager, env, result.
  destruct (c m w) as [[[a | e] m'] w']; repeat split; reflexivity.
Qed.

Lemma env_eta w :
  w = mkEnv (location w) (vendor w) (calls w ++ []) (navigations w) (alerts w).
Proof. destruct w. cbn. rewrite app_nil_r. reflexivity. Qed.

Lemma effects_none op w r :
  env r = w -> exists l loc nav, effects op w r l loc nav.
Proof.
  intros Henv. exists [], (location w), (navigations w).
  unfold effects. rewrite Henv. repeat split; auto using env_eta.
Qed.

Lemma effects_calls op w r l :
  env r = mkEnv (location w) (vendor w) (calls w ++ l) (navigations w) (alerts w) ->
  length l <= 2 ->
  exists l' loc nav, effects op w r l' loc nav.
Proof.
  intros Henv Hlen. exists l, (location w), (navigations w).
  unfold effects. repeat split; auto.
Qed.

Lemma signIn_attempt_effects m w l :
  sdk m = SdkHandle -> length l <= 1 ->
  forall r,
    env r = env (signIn_attempt m
                   (mkEnv (location w) (vendor w) (calls w ++ l)
                          (navigations w) (alerts w))) ->
    exists l' loc nav, effects OpSignIn w r l' loc nav.
Proof.
  intros Hsdk Hlen r Henv.
  rewrite signIn_attempt_with_handle in Henv by exact Hsdk.
  cbn [location origin vendor calls] in Henv.
  set (callbackUrl := origin (location w) ++ "/") in *.
  assert (Hlen' : length (l ++ [VSignInWithFuntico callbackUrl])%list <= 2)
    by (rewrite length_app; simpl; lia).
  destruct (vendor w (calls w ++ l) (VSignInWithFuntico callbackUrl)).
  - exists (l ++ [VSignInWithFuntico callbackUrl])%list, (location w), (navigations w).
    unfold effects. rewrite Henv. unfold env, record_call, navigate.
    cbn [snd location vendor calls navigations alerts]. rewrite <- app_assoc.
    repeat split; auto.
  - exists (l ++ [VSignInWithFuntico callbackUrl])%list, (location w),
      (navigations w ++ [login_url callbackUrl])%list.
    unfold effects. rewrite Henv. unfold env, record_call, navigate.
    cbn [snd location vendor calls navigations alerts]. rewrite <- app_assoc.
    repeat split; auto.
Qed.

Lemma call_effects op m w :
  consistent m -> exists l loc nav, effects op w (call op m w) l loc nav.
Proof.
  intros Hcons.
  destruct (isReady m) eqn:Hready.
  - pose proof (consistent_ready m Hcons Hready) as Hsdk.
    destruct op; unfold call.
    + apply effects_none. reflexivity.
    + destruct (returning_run JBool signIn m w) as (_ & Henv & _).
      rewrite (signIn_exact m w Hready Hsdk) in Henv.
      destruct (includes (hostname (location w)) "funtico.com").
      * destruct (vendor w (calls w) VGetUserInfo) as [v | e].
        -- destruct (truthy v && stringifies (prop v "username")).
           ++ apply effects_calls with (l := [VGetUserInfo]);
                [ exact Henv | simpl; lia ].
           ++ apply (signIn_attempt_effects (with_userInfo m v) w [VGetUserInfo]);
                [ exact Hsdk | simpl; lia | exact Henv ].
        -- apply (signIn_attempt_effects m w [VGetUserInfo]);
             [ exact Hsdk | simpl; lia | exact Henv ].
      * apply (signIn_attempt_effects m w []);
          [ exact Hsdk | simpl; lia | ].
        rewrite Henv. rewrite <- env_eta. reflexivity.
    + rewrite (getUserInfo_exact m w Hready Hsdk).
      destruct (truthy (userInfo m)); [ apply effects_none; reflexivity | ].
      destruct (vendor w (calls w) VGetUserInfo);
        apply effects_calls with (l := [VGetUserInfo]); try reflexivity; simpl; lia.
    + destruct (returning_run JBool (saveScore score) m w) as (_ & Henv & _).
      rewrite (saveScore_exact m w Hready Hsdk) in Henv.
      apply effects_calls with (l := [VSaveScore score]); [ exact Henv | simpl; lia ].
    + rewrite (getLeaderboard_exact m w Hready Hsdk).
      destruct (vendor w (calls w) VGetLeaderboard);
        apply effects_calls with (l := [VGetLeaderboard]); try reflexivity; simpl; lia.
    + destruct (returning_run JBool signOut m w) as (_ & Henv & _).
      rewrite (signOut_exact m w Hready Hsdk) in Henv.
      destruct (vendor w (calls w) (VSignOut (href (location w))));
        apply effects_calls with (l := [VSignOut (href (location w))]);
        try exact Henv; simpl; lia.
    + destruct (returning_run JBool handleCallback m w) as (_ & Henv & Hres).
      rewrite (handleCallback_exact m w Hsdk) in Henv, Hres.
      destruct (truthy_param (params_get "error" (searchParams (location w))));
        [ apply effects_none; exact Henv | ].
      destruct (params_get "code" (searchParams (location w))) as [c | ];
        [ | apply effects_none; exact Henv ].
      destruct (String.eqb c ""); [ apply effects_none; exact Henv | ].
      cbv zeta in Henv, Hres.
      destruct (vendor w (calls w) (VExchangeCodeForToken c)).
      * destruct (vendor w (calls w ++ [VExchangeCodeForToken c]) VGetUserInfo).
        -- unfold clean_location in *.
           destruct (rewritten (location w)) as [l | ] eqn:Hrewrite.
           ++ exists [VExchangeCodeForToken c; VGetUserInfo], l, (navigations w).
              unfold effects, clean_location. rewrite Hrewrite.
              repeat split; auto.
           ++ apply effects_calls with (l := [VExchangeCodeForToken c; VGetUserInfo]);
                [ | simpl; lia ].
              rewrite Henv. unfold env, record_call.
              cbn [snd location vendor calls navigations alerts].
              rewrite <- app_assoc. reflexivity.
        -- apply effects_calls with (l := [VExchangeCodeForToken c; VGetUserInfo]);
             [ | simpl; lia ].
           rewrite Henv. unfold env, record_call.
           cbn [snd location vendor calls navigations alerts].
           rewrite <- app_assoc. reflexivity.
      * apply effects_calls with (l := [VExchangeCodeForToken c]);
          [ exact Henv | simpl; lia ].
    + apply effects_none. reflexivity.
    + apply effects_none. reflexivity.
    + apply effects_none. reflexivity.
  - destruct (consistent_not_ready m Hcons Hready) as (_ & Hsdk & _).
    assert (Hno : sdk m <> SdkHandle) by congruence.
    apply effects_none.
    destruct op; unfold call;
      try (destruct (returning_run JBool signIn m w) as (_ & -> & _));
      try (destruct (returning_run JBool (saveScore score) m w) as (_ & -> & _));
      try (destruct (returning_run JBool signOut m w) as (_ & -> & _));
      try (destruct (returning_run JBool handleCallback m w) as (_ & -> & _));
      rewrite ?signIn_not_ready, ?getUserInfo_not_ready, ?saveScore_not_ready,
        ?getLeaderboard_not_ready, ?signOut_not_ready, ?handleCallback_no_handle
        by assumption;
      reflexivity.
Qed.

(** X19.  No operation of a reachable instance shows a blocking notice:
    the [alert] of the demo fallback is never reached. *)
Theorem no_notice_shown (op : Op) (m : FunticoManager) (w : Env) :
  reachable m -> alerts (env (call op m w)) = alerts w.
Proof.
  intros Hreach.
  destruct (call_effects op m w (reachable_consistent m Hreach))
    as (l & loc & nav & Henv & _).
  rewrite Henv. reflexivity.
Qed.

Lemma no_notice_shown_witness :
  let e := JObj [("name", JStr "Error"); ("message", JStr "Invalid redirect_uri")] in
  let w := Samples.page Samples.hosted (Samples.vendor_failing e) in
  reachable Samples.ready /\ alerts (env (call OpSignIn Samples.ready w)) = [].
Proof.
  intros e w.
  assert (H1 : reachable Samples.ready) by apply (reach_new Samples.sdk_present).
  split; [ exact H1 | ].
  exact (no_notice_shown OpSignIn Samples.ready w H1).
Defined.

(** X20.  Only [signIn] sends the page elsewhere, at most once per call
    and only to the hand-built login address for the page origin; every
    other operation leaves the navigation of the page alone. *)
Theorem navigation_only_by_signIn (op : Op) (m : FunticoManager) (w : Env) :
  reachable m ->
  navigations (env (call op m w)) = navigations w
  \/ (op = OpSignIn
      /\ navigations (env (call op m w))
         = (navigations w ++ [login_url (origin (location w) ++ "/")])%list).
Proof.
  intros Hreach.
  destruct (call_effects op m w (reachable_consistent m Hreach))
    as (l & loc & nav & Henv & _ & _ & Hnav).
  rewrite Henv. exact Hnav.
Qed.

Lemma navigation_only_by_signIn_witness :
  let w := Samples.page Samples.external Samples.vendor_signed_out in
  reachable Samples.ready
  /\ navigations (env (call OpSignIn Samples.ready w))
     = [login_url "https://avalanche-knight.vercel.app/"]
  /\ navigations (env (call OpSignOut Samples.ready w)) = [].
Proof.
  intros w.
  assert (H1 : reachable Samples.ready) by apply (reach_new Samples.sdk_present).
  split; [ exact H1 | ].
  split.
  - destruct (navigation_only_by_signIn OpSignIn Samples.ready w H1) as [H | [_ H]].
    + discriminate H.
    + exact H.
  - destruct (navigation_only_by_signIn OpSignOut Samples.ready w H1) as [H | [H _]].
    + exact H.
    + discriminate H.
Defined.

(** X21.  The address of the page is rewritten by one operation only: a
    [handleCallback] that returns [true], which reduces it to origin and
    path. *)
Theorem address_only_by_callback (op : Op) (m : FunticoManager) (w : Env) :
  reachable m ->
  location (env (call op m w)) = location w
  \/ (op = OpHandleCallback
      /\ result (call op m w) = Normal (JBool true)
      /\ location (env (call op m w)) = clean_location (location w)).
Proof.
  intros Hreach.
  destruct (call_effects op m w (reachable_consistent m Hreach))
    as (l & loc & nav & Henv & _ & Hloc & _).
  rewrite Henv. exact Hloc.
Qed.

Lemma address_only_by_callback_witness :
  let w := Samples.page (Samples.with_query "?code=abc123" [("code", "abc123")])
                        Samples.vendor_ok in
  reachable Samples.ready
  /\ location (env (call OpGetUserInfo Samples.ready w)) = location w
  /\ location (env (call OpHandleCallback Samples.ready w)) = Samples.external.
Proof.
  intros w.
  assert (H1 : reachable Samples.ready) by apply (reach_new Samples.sdk_present).
  split; [ exact H1 | ].
  split.
  - destruct (address_only_by_callback OpGetUserInfo Samples.ready w H1)
      as [H | [H _]].
    + exact H.
    + discriminate H.
  - destruct (address_only_by_callback OpHandleCallback Samples.ready w H1)
      as [H | (_ & _ & H)].
    + discriminate H.
    + exact H.
Defined.

(** X22.  One operation issues at most two vendor calls, and the trace of
    earlier calls is kept in front of them. *)
Theorem at_most_two_vendor_calls (op : Op) (m : FunticoManager) (w : Env) :
  reachable m ->
  calls (env (call op m w)) = (calls w ++ issued w (call op m w))%list
  /\ length (issued w (call op m w)) <= 2.
Proof.
  intros Hreach.
  destruct (call_effects op m w (reachable_consistent m Hreach))
    as (l & loc & nav & Henv & Hlen & _).
  assert (Hl : issued w (call op m w) = l)
    by (apply issued_app; rewrite Henv; reflexivity).
  rewrite Hl, Henv. split; [ reflexivity | exact Hlen ].
Qed.

Lemma at_most_two_vendor_calls_witness :
  let w := Samples.page Samples.hosted Samples.vendor_signed_out in
  reachable Samples.ready
  /\ issued w (call OpSignIn Samples.ready w)
     = [VGetUserInfo; VSignInWithFuntico "https://play.funtico.com/"]
  /\ length (issued w (call OpSignIn Samples.ready w)) <= 2.
Proof.
  intros w.
  assert (H1 : reachable Samples.ready) by apply (reach_new Samples.sdk_present).
  split; [ exact H1 | ].
  split; [ reflexivity | ].
  apply (at_most_two_vendor_calls OpSignIn Samples.ready w H1).
Defined.

(** ** Where a cached identity can come from *)

(** X23.  [isReady], [saveScore], [getLeaderboard], [isAuthenticated],
    [getUsername] and [getUserId] leave the instance exactly as it was, on
    every instance and whatever the vendor does. *)
Theorem assigns_nothing_keeps_instance (op : Op) (m : FunticoManager) (w : Env) :
  assigns_nothing op = true -> manager (call op m w) = m.
Proof.
  destruct op; simpl; intros H; try discriminate; try reflexivity.
  - destruct (returning_run JBool (saveScore score) m w) as (-> & _).
    unfold saveScore, bind, this, try_catch.
    destruct (negb (isReady m)); [ reflexivity | ].
    pose proof (sdk_call_manager (VSaveScore score) m w) as Hm.
    unfold manager in *.
    destruct (sdk_call (VSaveScore score) m w) as [[[a | e] m'] w']; exact Hm.
  - unfold getLeaderboard, bind, this, try_catch.
    destruct (negb (isReady m)); [ reflexivity | ].
    pose proof (sdk_call_manager VGetLeaderboard m w) as Hm.
    unfold manager in *.
    destruct (sdk_call VGetLeaderboard m w) as [[[a | e] m'] w']; exact Hm.
Qed.

Lemma assigns_nothing_keeps_instance_witness :
  let w := Samples.page Samples.external (Samples.vendor_failing JNull) in
  assigns_nothing (OpSaveScore 1200) = true
  /\ manager (call (OpSaveScore 1200) Samples.ready w) = Samples.ready.
Proof.
  intros w.
  split; [ reflexivity | ].
  exact (assigns_nothing_keeps_instance (OpSaveScore 1200) Samples.ready w eq_refl).
Defined.

Lemma call_identity op m w :
  consistent m ->
  userInfo (manager (call op m w)) = userInfo m
  \/ userInfo (manager (call op m w)) = JNull
  \/ exists cs, vendor w cs VGetUserInfo = Resolved (userInfo (manager (call op m w))).
Proof.
  intros Hcons.
  destruct (isReady m) eqn:Hready.
  - pose proof (consistent_ready m Hcons Hready) as Hsdk.
    destruct op; unfold call; try (left; reflexivity).
    + destruct (returning_run JBool signIn m w) as (-> & _).
      rewrite (signIn_exact m w Hready Hsdk).
      destruct (includes (hostname (location w)) "funtico.com").
      * destruct (vendor w (calls w) VGetUserInfo) as [v | e] eqn:Hget.
        -- destruct (truthy v && stringifies (prop v "username")).
           ++ right; right. exists (calls w). exact Hget.
           ++ rewrite (proj2 (signIn_attempt_keeps_identity (with_userInfo m v) _ Hsdk)).
              right; right. exists (calls w). exact Hget.
        -- rewrite (proj2 (signIn_attempt_keeps_identity _ _ Hsdk)).
           left; reflexivity.
      * rewrite (proj2 (signIn_attempt_keeps_identity _ _ Hsdk)).
        left; reflexivity.
    + rewrite (getUserInfo_exact m w Hready Hsdk).
      destruct (truthy (userInfo m)); [ left; reflexivity | ].
      destruct (vendor w (calls w) VGetUserInfo) as [v | e] eqn:Hget.
      * right; right. exists (calls w). exact Hget.
      * left; reflexivity.
    + destruct (returning_run JBool (saveScore score) m w) as (-> & _).
      rewrite (saveScore_exact m w Hready Hsdk). left; reflexivity.
    + rewrite (getLeaderboard_exact m w Hready Hsdk).
      destruct (vendor w (calls w) VGetLeaderboard); left; reflexivity.
    + destruct (returning_run JBool signOut m w) as (-> & _).
      rewrite (signOut_exact m w Hready Hsdk).
      destruct (vendor w (calls w) (VSignOut (href (location w))));
        [ right; left; reflexivity | left; reflexivity ].
    + destruct (returning_run JBool handleCallback m w) as (-> & _).
      rewrite (handleCallback_exact m w Hsdk).
      destruct (truthy_param (params_get "error" (searchParams (location w))));
        [ left; reflexivity | ].
      destruct (params_get "code" (searchParams (location w))) as [c | ];
        [ | left; reflexivity ].
      destruct (String.eqb c ""); [ left; reflexivity | ].
      cbv zeta.
      destruct (vendor w (calls w) (VExchangeCodeForToken c)) as [token | e0];
        [ | left; reflexivity ].
      destruct (vendor w (calls w ++ [VExchangeCodeForToken c]) VGetUserInfo)
        as [v | e] eqn:Hget; [ | left; reflexivity ].
      destruct (rewritten (location w));
        (right; right; exists (calls w ++ [VExchangeCodeForToken c])%list; exact Hget).
  - destruct (consistent_not_ready m Hcons Hready) as (Hinit & Hsdk & _).
    left. rewrite call_without_handle by assumption. reflexivity.
Qed.

Lemma calls_from_identity steps : forall m,
  consistent m ->
  userInfo (calls_from m steps) = userInfo m
  \/ userInfo (calls_from m steps) = JNull
  \/ vendor_identity steps (userInfo (calls_from m steps)).
Proof.
  induction steps as [ | [op w] rest IH ]; intros m Hcons; simpl.
  - left. reflexivity.
  - pose proof (call_consistent op m w Hcons) as Hcons1.
    destruct (IH _ Hcons1) as [Hsame | [Hnull | (op' & w' & cs & Hin & Hget)]].
    + rewrite Hsame.
      destruct (call_identity op m w Hcons) as [H | [H | [cs Hget]]].
      * left. exact H.
      * right; left. exact H.
      * right; right. exists op, w, cs. split; [ left; reflexivity | exact Hget ].
    + right; left. exact Hnull.
    + right; right. exists op', w', cs. split; [ right; exact Hin | exact Hget ].
Qed.

(** X24.  Whatever sequence of operations follows the construction, the
    cached identity is [null] or a value that the vendor's [getUserInfo]
    resolved to during one of these operations: the adapter never makes up
    an identity of its own. *)
Theorem identity_comes_from_vendor (FunticoSDK : SdkConfig -> Completion unit)
                                   (w0 : Env) (steps : list (Op * Env)) :
  let m := calls_from (constructor FunticoSDK w0) steps in
  userInfo m = JNull \/ vendor_identity steps (userInfo m).
Proof.
  intros m. subst m.
  destruct (calls_from_identity steps _ (constructor_consistent FunticoSDK w0))
    as [H | [H | H]].
  - left. rewrite H.
    unfold constructor, initializeSDK, try_catch, bind, window, new_FunticoSDK, manager.
    destruct (FunticoSDK (sdk_config (location w0))); reflexivity.
  - left. exact H.
  - right. exact H.
Qed.

(** ** The hand-built login address *)

Lemma hex_digit_unreserved n : uri_unreserved (hex_digit n) = true.
Proof. do 15 (destruct n as [ | n ]; [ reflexivity | ]). reflexivity. Qed.

Lemma encodeURIComponent_safe s :
  forallb uri_safe (list_ascii_of_string (encodeURIComponent s)) = true.
Proof.
  induction s as [ | c s IH ]; [ reflexivity | ].
  cbn [encodeURIComponent]. destruct (uri_unreserved c) eqn:Hc.
  - cbn [list_ascii_of_string forallb]. unfold uri_safe at 1.
    rewrite Hc, IH. reflexivity.
  - cbv zeta. cbn [list_ascii_of_string forallb]. rewrite IH.
    unfold uri_safe. rewrite !hex_digit_unreserved. reflexivity.
Qed.

Lemma hex_value_digit n : n < 16 -> hex_value (hex_digit n) = n.
Proof.
  intros Hn. do 16 (destruct n as [ | n ]; [ reflexivity | ]). lia.
Qed.

Lemma percent_decode_literal c rest :
  Ascii.eqb c "%" = false ->
  percent_decode (String c rest) = String c (percent_decode rest).
Proof.
  intros Hc. destruct rest as [ | h [ | l rest' ] ]; cbn [percent_decode];
    rewrite ?Hc; reflexivity.
Qed.

Lemma percent_decode_encode s : percent_decode (encodeURIComponent s) = s.
Proof.
  induction s as [ | c s IH ]; [ reflexivity | ].
  cbn [encodeURIComponent]. destruct (uri_unreserved c) eqn:Hc.
  - rewrite percent_decode_literal, IH; [ reflexivity | ].
    destruct (Ascii.eqb_spec c "%"); [ subst c; discriminate Hc | reflexivity ].
  - cbv zeta. cbn [percent_decode Ascii.eqb Bool.eqb andb]. rewrite IH.
    pose proof (nat_ascii_bounded c) as Hbound.
    rewrite !hex_value_digit.
    + rewrite <- Nat.div_mod_eq, ascii_nat_embedding. reflexivity.
    + apply Nat.mod_upper_bound. lia.
    + apply Nat.Div0.div_lt_upper_bound. lia.
Qed.

(** X25.  The login address is the fixed authorization endpoint with the
    percent-encoded callback spliced in as [redirect_uri].  The spliced
    text consists of letters, digits, [-_.!~*'()] and [%] only, so it
    cannot end the parameter or add another one, and percent-decoding it
    gives the callback back. *)
Theorem login_url_well_formed (callbackUrl : string) :
  let redirect_uri := encodeURIComponent callbackUrl in
  login_url callbackUrl =
    "https://auth.funtico.com/oauth2/auth?client_id=gl-avalanche-knight&redirect_uri="
    ++ redirect_uri ++ "&response_type=code&scope=openid+profile+email"
  /\ percent_decode redirect_uri = callbackUrl
  /\ forallb uri_safe (list_ascii_of_string redirect_uri) = true
  /\ uri_safe "&" = false /\ uri_safe "=" = false /\ uri_safe "#" = false.
Proof.
  cbv zeta.
  split; [ reflexivity | ].
  split; [ apply percent_decode_encode | ].
  split; [ apply encodeURIComponent_safe | ].
  repeat split; reflexivity.
Qed.
